(** * ai-codereviewer: the diff-to-review pipeline of [src/main.ts]

    A shallow embedding of [main.ts] and the properties of its pipeline:
    path filtering, prompt compilation, the inference client, the comment
    aggregation and the single submission.

    Strings are byte strings read as UTF-8.  Everything the program obtains
    from outside (the process environment, the event file, the host API, the
    inference service, and the packages [parse-diff] and [minimatch]) is a
    field of the record [Env]; the theorems hold for every [Env]. *)

From Stdlib Require Import String Ascii List Bool Arith ZArith NArith QArith DecimalString Lia.
From Stdlib Require Import Qpower Qfield.
From Stdlib Require Qcanon DecimalPos DecimalN.
Import ListNotations.
Local Close Scope Q_scope.
Local Open Scope list_scope.
Local Open Scope string_scope.
Set Warnings "-register-all".

(** * The JavaScript runtime, as far as [main.ts] relies on it *)
Module JS.

(** ** Abrupt completions *)

Inductive Error :=
| TypeError                  (* property of null/undefined, call of a non-function *)
| SyntaxError                (* JSON.parse on text that is no JSON *)
| Fault (what : string).     (* rejection by an external collaborator *)

Inductive Completion (A : Type) :=
| Normal (a : A)
| Throw (e : Error).
Arguments Normal {A} a.
Arguments Throw {A} e.

(** ** Strings *)

Definition bytes (l : list N) : string :=
  fold_right (fun n s => String (ascii_of_N n) s) EmptyString l.

Definition dquote : string := bytes [34%N].
Definition newline : string := bytes [10%N].

Fixpoint string_rev (s : string) : string :=
  match s with
  | EmptyString => EmptyString
  | String c s' => string_rev s' ++ String c EmptyString
  end.

(** [strip_prefix p s] is what follows [p] in [s], when [s] starts with [p]. *)
Fixpoint strip_prefix (p s : string) : option string :=
  match p, s with
  | EmptyString, _ => Some s
  | String a p', String b s' => if Ascii.eqb a b then strip_prefix p' s' else None
  | String _ _, EmptyString => None
  end.

Fixpoint strip_any (ps : list string) (s : string) : option string :=
  match ps with
  | [] => None
  | p :: ps' =>
      match strip_prefix p s with
      | Some rest => Some rest
      | None => strip_any ps' s
      end
  end.

(** WhiteSpace and LineTerminator of ECMAScript, in UTF-8: TAB, LF, VT, FF,
    CR, SP, U+00A0, U+1680, U+2000..U+200A, U+2028, U+2029, U+202F, U+205F,
    U+3000, U+FEFF. *)
Definition WhiteSpace : list string :=
  map bytes
    [ [9]; [10]; [11]; [12]; [13]; [32]; [194; 160]; [225; 154; 128];
      [226; 128; 128]; [226; 128; 129]; [226; 128; 130]; [226; 128; 131];
      [226; 128; 132]; [226; 128; 133]; [226; 128; 134]; [226; 128; 135];
      [226; 128; 136]; [226; 128; 137]; [226; 128; 138];
      [226; 128; 168]; [226; 128; 169]; [226; 128; 175]; [226; 129; 159];
      [227; 128; 128]; [239; 187; 191] ]%N.

Fixpoint strip_all (ps : list string) (fuel : nat) (s : string) : string :=
  match fuel with
  | O => s
  | S fuel' =>
      match strip_any ps s with
      | Some rest => strip_all ps fuel' rest
      | None => s
      end
  end.

Definition trimStart (s : string) : string :=
  strip_all WhiteSpace (String.length s) s.

Definition trimEnd (s : string) : string :=
  string_rev (strip_all (map string_rev WhiteSpace) (String.length s) (string_rev s)).

(** String.prototype.trim *)
Definition trim (s : string) : string := trimEnd (trimStart s).

(** [s.split(",")] *)
Fixpoint split_comma (s : string) : list string :=
  match s with
  | EmptyString => [EmptyString]
  | String c s' =>
      if Ascii.eqb c ","%char then EmptyString :: split_comma s'
      else match split_comma s' with
           | h :: t => String c h :: t
           | [] => [String c EmptyString]
           end
  end.

(** [l.join(sep)] on an array of strings *)
Fixpoint join (sep : string) (l : list string) : string :=
  match l with
  | [] => EmptyString
  | [x] => x
  | x :: rest => x ++ sep ++ join sep rest
  end.

(** ** Numbers

    [Finite s q] is the double of sign [s] and magnitude [q]; [Finite true 0]
    is the negative zero. *)

Inductive JSNumber :=
| NaN
| Infinity (negative : bool)
| Finite (negative : bool) (magnitude : Q).

Definition zero : JSNumber := Finite false 0.

(** floor (log2 q) for a positive rational *)
Definition floor_log2 (q : Q) : Z :=
  let k := (Z.log2 (Qnum q) - Z.log2 (Zpos (Qden q)))%Z in
  if Qle_bool (Qpower 2 k) q then k else (k - 1)%Z.

(** the integer nearest to a non-negative rational, ties to even *)
Definition round_half_even (q : Q) : Z :=
  let n := Qnum q in
  let d := Zpos (Qden q) in
  let f := (n / d)%Z in
  match (2 * (n mod d) ?= d)%Z with
  | Lt => f
  | Gt => (f + 1)%Z
  | Eq => if Z.even f then f else (f + 1)%Z
  end.

(** The double nearest to the mathematical value [mv >= 0] (binary64: 53
    bits of precision, least exponent -1074, overflow at 2^1024). *)
Definition RoundMVResult (negative : bool) (mv : Q) : JSNumber :=
  if Qeq_bool mv 0 then Finite negative 0
  else
    let p := Z.max (floor_log2 mv - 52) (-1074) in
    let m := round_half_even (mv / Qpower 2 p) in
    let v := Qred (inject_Z m * Qpower 2 p) in
    if Qle_bool (Qpower 2 1024) v then Infinity negative else Finite negative v.

Definition digit_value (radix : N) (c : ascii) : option N :=
  let n := N_of_ascii c in
  let v := if (48 <=? n)%N && (n <=? 57)%N then Some (n - 48)%N
           else if (97 <=? n)%N && (n <=? 102)%N then Some (n - 87)%N
           else if (65 <=? n)%N && (n <=? 70)%N then Some (n - 55)%N
           else None in
  match v with
  | Some d => if (d <? radix)%N then Some d else None
  | None => None
  end.

(** The longest run of digits at the head of [s]: the value accumulated on
    [acc], the number of digits read, and the rest. *)
Fixpoint digits (radix : N) (s : string) (acc : N) (count : nat) : N * nat * string :=
  match s with
  | String c s' =>
      match digit_value radix c with
      | Some d => digits radix s' (acc * radix + d)%N (S count)
      | None => (acc, count, s)
      end
  | EmptyString => (acc, count, s)
  end.

(** 0x.., 0o.., 0b.. (no sign) *)
Definition NonDecimalIntegerLiteral (s : string) : option JSNumber :=
  match s with
  | String "0"%char (String r rest) =>
      let radix :=
        if Ascii.eqb r "x"%char || Ascii.eqb r "X"%char then Some 16%N
        else if Ascii.eqb r "o"%char || Ascii.eqb r "O"%char then Some 8%N
        else if Ascii.eqb r "b"%char || Ascii.eqb r "B"%char then Some 2%N
        else None in
      match radix with
      | Some rd =>
          match digits rd rest 0%N O with
          | (v, S _, EmptyString) => Some (RoundMVResult false (inject_Z (Z.of_N v)))
          | _ => None
          end
      | None => None
      end
  | _ => None
  end.

(** What follows the mantissa: nothing, or [e]/[E], an optional sign and
    digits.  The value of the exponent. *)
Definition ExponentPart (s : string) : option Z :=
  match s with
  | EmptyString => Some 0%Z
  | String c rest =>
      if Ascii.eqb c "e"%char || Ascii.eqb c "E"%char then
        let '(neg, ds) :=
          match rest with
          | String "+"%char r => (false, r)
          | String "-"%char r => (true, r)
          | _ => (false, rest)
          end in
        match digits 10%N ds 0%N O with
        | (v, S _, EmptyString) => Some (if neg then (- Z.of_N v)%Z else Z.of_N v)
        | _ => None
        end
      else None
  end.

(** Infinity | digits [. [digits]] [exponent] | . digits [exponent] *)
Definition StrUnsignedDecimalLiteral (negative : bool) (s : string) : option JSNumber :=
  if s =? "Infinity" then Some (Infinity negative)
  else
    let '(i, ni, rest) := digits 10%N s 0%N O in
    let '(mant, nf, rest') :=
      match rest with
      | String "."%char r => digits 10%N r i O
      | _ => (i, O, rest)
      end in
    match (ni + nf)%nat with
    | O => None
    | S _ =>
        match ExponentPart rest' with
        | Some e =>
            Some (RoundMVResult negative
                    (inject_Z (Z.of_N mant) * Qpower 10 (e - Z.of_nat nf)))
        | None => None
        end
    end.

Definition StrDecimalLiteral (s : string) : option JSNumber :=
  match s with
  | String "+"%char r => StrUnsignedDecimalLiteral false r
  | String "-"%char r => StrUnsignedDecimalLiteral true r
  | _ => StrUnsignedDecimalLiteral false s
  end.

Definition StrNumericLiteral (s : string) : option JSNumber :=
  match NonDecimalIntegerLiteral s with
  | Some n => Some n
  | None => StrDecimalLiteral s
  end.

(** StringToNumber: white space around the literal is dropped, the blank
    string is +0, and text that is no StrNumericLiteral is NaN. *)
Definition StringToNumber (s : string) : JSNumber :=
  let t := trim s in
  if t =? EmptyString then zero
  else match StrNumericLiteral t with
       | Some n => n
       | None => NaN
       end.

(** [`${n}`] for a line number counted by the diff parser: its decimal
    digits.  This is what the runtime prints for a number below 2^53, which
    a double holds exactly.  From 2^53 on the runtime prints the digits of
    the double the number is rounded to, and from 10^21 on in exponent
    form; such numbers are not modelled, and what is proved about the digits
    of a label carries the bound. *)
Definition N_toString (n : N) : string := NilEmpty.string_of_uint (N.to_uint n).

(** ** Values, as JSON.parse builds them *)

Inductive JSValue :=
| JUndefined
| JNull
| JBool (b : bool)
| JNumber (n : JSNumber)
| JString (s : string)
| JArray (elements : list JSValue)
| JObject (properties : list (string * JSValue)).

Fixpoint lookup (k : string) (props : list (string * JSValue)) : JSValue :=
  match props with
  | [] => JUndefined
  | (k', v) :: rest => if k =? k' then v else lookup k rest
  end.

(** [v.k] for a key [k] that no prototype defines (every key [main.ts]
    reads: reviews, lineNumber, reviewComment, action, repository, number,
    owner, login, name): a TypeError on null and undefined, the own property
    of an object, undefined on every other value. *)
Definition Get (v : JSValue) (k : string) : Completion JSValue :=
  match v with
  | JUndefined | JNull => Throw TypeError
  | JObject props => Normal (lookup k props)
  | _ => Normal JUndefined
  end.

(** ToBoolean *)
Definition truthy (v : JSValue) : bool :=
  match v with
  | JUndefined | JNull => false
  | JBool b => b
  | JNumber NaN => false
  | JNumber (Infinity _) => true
  | JNumber (Finite _ q) => negb (Qeq_bool q 0)
  | JString s => negb (s =? EmptyString)
  | JArray _ | JObject _ => true
  end.

(** [v === s] for a string literal [s] *)
Definition strict_equals_string (v : JSValue) (s : string) : bool :=
  match v with
  | JString t => t =? s
  | _ => false
  end.

(** [Number(v)].  An array or an object is first converted to a primitive
    string by the runtime ([to_primitive]: Array.prototype.toString and
    Object.prototype.toString, a TypeError when the object shadows them with
    something that cannot be called). *)
Definition ToNumber (to_primitive : JSValue -> Completion string) (v : JSValue)
  : Completion JSNumber :=
  match v with
  | JUndefined => Normal NaN
  | JNull => Normal zero
  | JBool b => Normal (if b then Finite false 1 else zero)
  | JNumber n => Normal n
  | JString s => Normal (StringToNumber s)
  | JArray _ | JObject _ =>
      match to_primitive v with
      | Normal s => Normal (StringToNumber s)
      | Throw e => Throw e
      end
  end.

End JS.

Import JS.


(** * The records of [parse-diff]

    Only the fields [main.ts] reads are kept.  A change is the object the
    parser builds: [ln] on an added line (its number in the new file) and
    on a deleted line (its number in the original file), [ln1] and [ln2] on
    a context line (original and new number).  The fields are optional, as
    the program reads them: it tests [c.ln] and falls back on [c.ln2].  A
    line number is a natural number: the parser reads it off the digits of
    a hunk header and counts up from there. *)
Module ParseDiff.

Inductive ChangeType := normal | add | del.

Module Change.
Record t := {
  type : ChangeType;
  ln : option N;
  ln1 : option N;
  ln2 : option N;
  content : string
}.
End Change.

(** The three shapes the package declares. *)
Definition NormalChange (ln1 ln2 : N) (content : string) : Change.t :=
  {| Change.type := normal; Change.ln := None; Change.ln1 := Some ln1;
     Change.ln2 := Some ln2; Change.content := content |}.

Definition AddChange (ln : N) (content : string) : Change.t :=
  {| Change.type := add; Change.ln := Some ln; Change.ln1 := None;
     Change.ln2 := None; Change.content := content |}.

Definition DeleteChange (ln : N) (content : string) : Change.t :=
  {| Change.type := del; Change.ln := Some ln; Change.ln1 := None;
     Change.ln2 := None; Change.content := content |}.

Module Chunk.
Record t := {
  content : string;
  changes : list Change.t
}.
End Chunk.

Module File.
Record t := {
  to : option string;
  chunks : list Chunk.t
}.
End File.

End ParseDiff.

Import ParseDiff.

(** * The response of the inference service (openai) *)
Module OpenAI.

Record ChatCompletionMessage := { content : option string }.
Record Choice := { message : option ChatCompletionMessage }.
Record ChatCompletion := { choices : list Choice }.

End OpenAI.

(** * The program's own records *)

Record PRDetails := {
  owner : JSValue;
  repo : JSValue;
  pull_number : JSValue;
  title : string;
  description : string
}.

(** An element of the array that [analyzeCode] returns and
    [createReviewComment] submits. *)
Record Comment := {
  body : JSValue;
  path : option string;
  line : JSNumber
}.

(** What [octokit.pulls.get] answers for the metadata request. *)
Record PullData := {
  data_title : option string;
  data_body : option string
}.

(** * The outside world

    What the program reads and calls.  [JSON_parse] and [ToPrimitive] are
    the runtime's; an object that [JSON_parse] returns lists each key once.
    [parseDiff] and [minimatch] are taken as total functions: [minimatch]
    stands for the package on the patterns it accepts.  The package throws a
    TypeError on a pattern of more than 65536 characters, and [main] calls it
    outside any try block; a run with such a pattern is not modelled, and
    what is proved about a run that passes the filter and ends with exit
    code 0 carries the bound on the patterns ([patterns_accepted]).  The
    requests to the host and to the inference service complete normally or
    throw. *)

Record Env := {
  (* process.env and fs *)
  GITHUB_EVENT_PATH : option string;
  GITHUB_EVENT_NAME : option string;
  readFileSync : string -> Completion string;
  (* the runtime's JSON.parse and its conversion of objects to primitives *)
  JSON_parse : string -> Completion JSValue;
  ToPrimitive : JSValue -> Completion string;
  (* core.getInput *)
  getInput : string -> string;
  (* octokit.pulls.get (metadata; diff), octokit.pulls.createReview *)
  pulls_get : JSValue -> JSValue -> JSValue -> Completion PullData;
  pulls_get_diff : JSValue -> JSValue -> JSValue -> Completion (option string);
  pulls_createReview : JSValue -> JSValue -> JSValue -> list Comment -> Completion unit;
  (* parse-diff and minimatch *)
  parseDiff : string -> list File.t;
  minimatch : string -> string -> bool;
  (* openai.chat.completions.create: the answer to the n-th call of the run *)
  chat_completions_create : nat -> string -> Completion OpenAI.ChatCompletion
}.

(** * Runs: a trace of actions, a completion, and the count of inference calls *)

Inductive Action :=
| ReadFile (path : string)
| PullsGet (owner repo pull_number : JSValue)
| PullsGetDiff (owner repo pull_number : JSValue)
| ParseDiff (diff : string)
| CreatePrompt (prompt : string)
| ChatCompletionsCreate (prompt : string)
| CreateReview (owner repo pull_number : JSValue) (comments : list Comment)
| ConsoleLog (args : list JSValue)
| ConsoleError (error : Error).

(** An action of the trace, and the file of the loop iteration of
    [analyzeCode] in which it happened, if any. *)
Record Event := {
  scope : option File.t;
  action : Action
}.

Definition Run (A : Type) : Type := nat -> list Event * Completion A * nat.

Definition ret {A} (a : A) : Run A := fun n => ([], Normal a, n).

Definition bind {A B} (m : Run A) (k : A -> Run B) : Run B :=
  fun n =>
    match m n with
    | (t, Normal a, n') => let '(t', r, n'') := k a n' in ((t ++ t')%list, r, n'')
    | (t, Throw e, n') => (t, Throw e, n')
    end.

Declare Scope run_scope.
Delimit Scope run_scope with run.
Notation "x <- m ;; k" := (bind m (fun x => k))
  (at level 100, m at next level, right associativity) : run_scope.
Notation "m ;;; k" := (bind m (fun _ => k))
  (at level 100, right associativity) : run_scope.
Local Open Scope run_scope.

Definition lift {A} (c : Completion A) : Run A := fun n => ([], c, n).

Definition emit (a : Action) : Run unit :=
  fun n => ([{| scope := None; action := a |}], Normal tt, n).

(** An external call: it is recorded, then completes as the world decides. *)
Definition call {A} (a : Action) (c : Completion A) : Run A :=
  emit a ;;; lift c.

(** try { m } catch (error) { handler error } *)
Definition try_catch {A} (m : Run A) (handler : Error -> Run A) : Run A :=
  fun n =>
    match m n with
    | (t, Normal a, n') => (t, Normal a, n')
    | (t, Throw e, n') => let '(t', r, n'') := handler e n' in ((t ++ t')%list, r, n'')
    end.

(** [openai.chat.completions.create]: the call is recorded and counted, and
    completes as the service decides for the n-th call of the run. *)
Definition create (w : Env) (prompt : string) : Run OpenAI.ChatCompletion :=
  fun n =>
    ([{| scope := None; action := ChatCompletionsCreate prompt |}],
     chat_completions_create w n prompt, S n).

(** The actions of [m] are put in the scope of [file].  The scope is a
    label of the trace, not a state of the program: it tells which file's
    iteration of the loop of [analyzeCode] an action belongs to. *)
Definition in_iteration {A} (file : File.t) (m : Run A) : Run A :=
  fun n =>
    let '(t, r, n') := m n in
    (map (fun e => {| scope := Some file; action := action e |}) t, r, n').

(** [x ?? d] and, on strings, [x || d] *)
Definition nullish {A} (x : option A) (d : A) : A :=
  match x with Some a => a | None => d end.

Definition or_else (x : option string) (d : string) : string :=
  match x with
  | Some s => if s =? EmptyString then d else s
  | None => d
  end.

(** * createPrompt *)

(** [c.ln ? c.ln : c.ln2]; [None] is undefined. *)
Definition lineLabel (c : Change.t) : option N :=
  match Change.ln c with
  | Some n => if (n =? 0)%N then Change.ln2 c else Some n
  | None => Change.ln2 c
  end.

(** A number or undefined in a template literal. *)
Definition template_number (x : option N) : string :=
  match x with
  | Some n => N_toString n
  | None => "undefined"
  end.

(** A string or undefined in a template literal. *)
Definition template_string (x : option string) : string :=
  match x with
  | Some s => s
  | None => "undefined"
  end.

Definition renderChange (c : Change.t) : string :=
  template_number (lineLabel c) ++ " " ++ Change.content c.

Definition renderChunk (chunk : Chunk.t) : string :=
  newline ++ Chunk.content chunk ++ newline
  ++ join newline (map renderChange (Chunk.changes chunk)).

Definition combinedChunks (chunks : list Chunk.t) : string :=
  join newline (map renderChunk chunks).

(** The text of the template literal of [createPrompt], cut at its
    interpolations. *)
Definition prompt_instructions : string :=
  join newline
    [ EmptyString;
      "    Você é um Engenheiro de Software experiente e deve revisar um pull request para garantir código limpo, eficiente e seguindo boas práticas. Analise:";
      EmptyString;
      "    1. Qualidade: Verifique manutenibilidade e clareza. Simplifique onde possível.";
      "    2. Lógica: Confirme a funcionalidade e identifique erros ou casos extremos.";
      "    3. Desempenho: Sugira melhorias de uso de recursos e execução.";
      "    4. Segurança: Identifique vulnerabilidades.";
      "    5. Testes: Avalie cobertura e eficácia. Sugira testes adicionais, se necessário.";
      "    6. Documentação: Verifique se está clara e precisa, mas não sugira adicionar comentários no código.";
      EmptyString;
      "    Formato da resposta: JSON no formato {" ++ dquote ++ "reviews" ++ dquote ++ ": [{" ++ dquote ++ "lineNumber" ++ dquote ++ ": " ++ dquote ++ "<número>" ++ dquote ++ ", " ++ dquote ++ "reviewComment" ++ dquote ++ ": " ++ dquote ++ "<comentário>" ++ dquote ++ "}]}. Só forneça sugestões de melhoria e comente uma vez por problema. Se não houver melhorias, deixe " ++ dquote ++ "reviews" ++ dquote ++ " vazio.";
      EmptyString;
      "    Instruções:";
      "    - Comente apenas arquivos de código, ignore configurações (.json, .yaml, .yml, .properties).";
      "    - Feedback construtivo e específico, em português do Brasil.";
      EmptyString;
      "    Revise o seguinte diff de código no arquivo " ++ dquote ].

Definition prompt_title : string :=
  join newline
    [ dquote ++ " e considere o título e a descrição do pull request ao escrever a resposta.";
      EmptyString;
      "    Título do pull request: " ].

Definition prompt_description : string :=
  join newline
    [ EmptyString;
      "    Descrição do pull request:";
      EmptyString;
      "    ---";
      "    " ].

Definition prompt_diff : string :=
  join newline
    [ EmptyString;
      "    ---";
      EmptyString;
      "    Git diff para revisão:";
      EmptyString;
      "```diff";
      EmptyString ].

Definition prompt_end : string :=
  join newline
    [ EmptyString;
      "```";
      EmptyString ].

Definition createPrompt (file : File.t) (chunks : list Chunk.t) (prDetails : PRDetails)
  : string :=
  prompt_instructions ++ template_string (File.to file) ++ prompt_title
  ++ title prDetails ++ prompt_description ++ description prDetails
  ++ prompt_diff ++ combinedChunks chunks ++ prompt_end.

(** * getPRDetails *)

Definition getPRDetails (w : Env) : Run PRDetails :=
  let path := or_else (GITHUB_EVENT_PATH w) EmptyString in
  text <- call (ReadFile path) (readFileSync w path) ;;
  event <- lift (JSON_parse w text) ;;
  repository <- lift (Get event "repository") ;;
  number <- lift (Get event "number") ;;
  repository_owner <- lift (Get repository "owner") ;;
  login <- lift (Get repository_owner "login") ;;
  name <- lift (Get repository "name") ;;
  prResponse <- call (PullsGet login name number) (pulls_get w login name number) ;;
  ret {| owner := login;
         repo := name;
         pull_number := number;
         title := nullish (data_title prResponse) EmptyString;
         description := nullish (data_body prResponse) EmptyString |}.

(** * getDiff *)

Definition getDiff (w : Env) (owner repo pull_number : JSValue) : Run (option string) :=
  call (PullsGetDiff owner repo pull_number) (pulls_get_diff w owner repo pull_number).

(** * getAIResponse

    The value returned is whatever [JSON.parse(res).reviews] is; [JNull] is
    the [null] of the catch clause. *)

(** [response.choices[0].message?.content?.trim() || "{}"]; reading
    [message] off a missing first choice is a TypeError. *)
Definition responseText (response : OpenAI.ChatCompletion) : Completion string :=
  match OpenAI.choices response with
  | [] => Throw TypeError
  | choice :: _ =>
      match OpenAI.message choice with
      | Some m => Normal (or_else (option_map trim (OpenAI.content m)) "{}")
      | None => Normal "{}"
      end
  end.

Definition getAIResponse (w : Env) (prompt : string) : Run JSValue :=
  try_catch
    (response <- create w prompt ;;
     res <- lift (responseText response) ;;
     parsed <- lift (JSON_parse w res) ;;
     lift (Get parsed "reviews"))
    (fun error => emit (ConsoleError error) ;;; ret JNull).

(** * analyzeCode *)

(** The callback of [aiResponse.map]. *)
Definition toComment (w : Env) (file : File.t) (aiComment : JSValue) : Completion Comment :=
  match Get aiComment "reviewComment" with
  | Throw e => Throw e
  | Normal reviewComment =>
      match Get aiComment "lineNumber" with
      | Throw e => Throw e
      | Normal lineNumber =>
          match ToNumber (ToPrimitive w) lineNumber with
          | Throw e => Throw e
          | Normal n => Normal {| body := reviewComment; path := File.to file; line := n |}
          end
      end
  end.

(** [array.map(f)] for a callback that may throw *)
Fixpoint map_completion {A B} (f : A -> Completion B) (l : list A) : Completion (list B) :=
  match l with
  | [] => Normal []
  | x :: rest =>
      match f x with
      | Throw e => Throw e
      | Normal y =>
          match map_completion f rest with
          | Throw e => Throw e
          | Normal ys => Normal (y :: ys)
          end
      end
  end.

(** [aiResponse.map(...)]: only an array has a [map] to call. *)
Definition newComments (w : Env) (file : File.t) (aiResponse : JSValue)
  : Completion (list Comment) :=
  match aiResponse with
  | JArray elements => map_completion (toComment w file) elements
  | _ => Throw TypeError
  end.

Definition is_deleted (file : File.t) : bool :=
  match File.to file with
  | Some s => s =? "/dev/null"
  | None => false
  end.

(** The body of the loop, for one file, on the comments gathered so far. *)
Definition analyzeFile (w : Env) (prDetails : PRDetails) (file : File.t)
           (comments : list Comment) : Run (list Comment) :=
  if is_deleted file then ret comments
  else
    in_iteration file
      (let chunks := File.chunks file in
       let prompt := createPrompt file chunks prDetails in
       emit (CreatePrompt prompt) ;;;
       aiResponse <- getAIResponse w prompt ;;
       if truthy aiResponse then
         new <- lift (newComments w file aiResponse) ;;
         ret (comments ++ new)%list
       else ret comments).

Fixpoint analyzeLoop (w : Env) (prDetails : PRDetails) (files : list File.t)
         (comments : list Comment) : Run (list Comment) :=
  match files with
  | [] => ret comments
  | file :: rest =>
      comments' <- analyzeFile w prDetails file comments ;;
      analyzeLoop w prDetails rest comments'
  end.

Definition analyzeCode (w : Env) (parsedDiff : list File.t) (prDetails : PRDetails)
  : Run (list Comment) :=
  analyzeLoop w prDetails parsedDiff [].

(** * createReviewComment *)

Definition createReviewComment (w : Env) (owner repo pull_number : JSValue)
           (comments : list Comment) : Run unit :=
  call (CreateReview owner repo pull_number comments)
       (pulls_createReview w owner repo pull_number comments).

(** * main *)

Definition excludePatterns (w : Env) : list string :=
  map trim (split_comma (getInput w "exclude")).

Definition filteredDiff (w : Env) (parsedDiff : list File.t) : list File.t :=
  filter
    (fun file =>
       negb (existsb (fun pattern => minimatch w (nullish (File.to file) EmptyString) pattern)
                     (excludePatterns w)))
    parsedDiff.

(** [main] from [parseDiff(diff)] on. *)
Definition review (w : Env) (prDetails : PRDetails) (diff : string) : Run unit :=
  emit (ParseDiff diff) ;;;
  let parsedDiff := parseDiff w diff in
  comments <- analyzeCode w (filteredDiff w parsedDiff) prDetails ;;
  match comments with
  | [] => ret tt
  | _ :: _ =>
      createReviewComment w (owner prDetails) (repo prDetails) (pull_number prDetails) comments
  end.

Definition env_name (w : Env) : JSValue :=
  match GITHUB_EVENT_NAME w with
  | Some s => JString s
  | None => JUndefined
  end.

Definition main (w : Env) : Run unit :=
  prDetails <- getPRDetails w ;;
  let path := nullish (GITHUB_EVENT_PATH w) EmptyString in
  text <- call (ReadFile path) (readFileSync w path) ;;
  eventData <- lift (JSON_parse w text) ;;
  action <- lift (Get eventData "action") ;;
  if strict_equals_string action "opened" || strict_equals_string action "synchronize" then
    diff <- getDiff w (owner prDetails) (repo prDetails) (pull_number prDetails) ;;
    match diff with
    | None => emit (ConsoleLog [JString "No diff found"])
    | Some text =>
        if text =? EmptyString then emit (ConsoleLog [JString "No diff found"])
        else review w prDetails text
    end
  else
    emit (ConsoleLog [JString "Unsupported event:"; env_name w]).

(** [main().catch(...)]: the trace of the process and its exit code. *)
Definition program (w : Env) : list Event * N :=
  match main w O with
  | (t, Normal _, _) => (t, 0%N)
  | (t, Throw error, _) =>
      ((t ++ [{| scope := None; action := ConsoleError error |}])%list, 1%N)
  end.

(** * Notions the properties are stated with *)

(** What the try block of [getAIResponse] completes with on the n-th call:
    the [reviews] member of the parsed answer, or the fault that the catch
    clause turns into [null]. *)
Definition reviewsOf (w : Env) (n : nat) (prompt : string) : Completion JSValue :=
  match chat_completions_create w n prompt with
  | Throw e => Throw e
  | Normal response =>
      match responseText response with
      | Throw e => Throw e
      | Normal res =>
          match JSON_parse w res with
          | Throw e => Throw e
          | Normal parsed => Get parsed "reviews"
          end
      end
  end.

(** The n-th inference call gives nothing to review, and [logged] is what
    the catch clause of [getAIResponse] logs for it: the call is rejected
    (its error is logged), the answer has no choice (the TypeError of
    reading [message] of undefined), its text is no JSON (the error of
    [JSON.parse]), it is the JSON [null] (the TypeError of reading [reviews]
    of null), or the parsed value has no truthy [reviews] member (nothing is
    thrown, and nothing logged). *)
Inductive NoFindings (w : Env) (n : nat) (prompt : string) : option Error -> Prop :=
| call_throws e :
    chat_completions_create w n prompt = Throw e -> NoFindings w n prompt (Some e)
| no_choice response :
    chat_completions_create w n prompt = Normal response ->
    OpenAI.choices response = [] -> NoFindings w n prompt (Some TypeError)
| not_parseable response res e :
    chat_completions_create w n prompt = Normal response ->
    responseText response = Normal res ->
    JSON_parse w res = Throw e -> NoFindings w n prompt (Some e)
| parsed_null response res :
    chat_completions_create w n prompt = Normal response ->
    responseText response = Normal res ->
    JSON_parse w res = Normal JNull -> NoFindings w n prompt (Some TypeError)
| no_reviews response res parsed reviews :
    chat_completions_create w n prompt = Normal response ->
    responseText response = Normal res ->
    JSON_parse w res = Normal parsed ->
    Get parsed "reviews" = Normal reviews ->
    truthy reviews = false -> NoFindings w n prompt None.

(** The events of the iteration of [file] when its inference call gives
    nothing to review: the prompt, the one request, and the fault logged
    with [console.error] when there is one. *)
Definition trace_no_findings (file : File.t) (prompt : string) (logged : option Error)
  : list Event :=
  [ {| scope := Some file; action := CreatePrompt prompt |};
    {| scope := Some file; action := ChatCompletionsCreate prompt |} ]
  ++ match logged with
     | Some e => [ {| scope := Some file; action := ConsoleError e |} ]
     | None => []
     end.

(** The findings the service returned on the n-th call, made for [file]: the
    elements of the [reviews] array, none when there is no such array. *)
Definition findings (w : Env) (prDetails : PRDetails) (n : nat) (file : File.t)
  : list JSValue :=
  match reviewsOf w n (createPrompt file (File.chunks file) prDetails) with
  | Normal (JArray elements) => elements
  | _ => []
  end.

(** The files that reach the inference service, each with the number of its
    call: the files that are no deletion, in their order, numbered from [n]. *)
Definition processed (n : nat) (files : list File.t) : list (nat * File.t) :=
  let kept := filter (fun file => negb (is_deleted file)) files in
  combine (seq n (length kept)) kept.

(** Each file's findings converted one by one, file after file. *)
Definition commentsInOrder (w : Env) (prDetails : PRDetails) (n : nat)
           (files : list File.t) : list (Completion Comment) :=
  flat_map (fun '(k, file) => map (toComment w file) (findings w prDetails k file))
           (processed n files).





(** [v] is a finding as the response schema has it: an object whose
    [lineNumber] is the string [lineNumber]; [reviewComment] is what it has
    for a comment text. *)
Definition is_finding (v : JSValue) (lineNumber : string) (reviewComment : JSValue) : Prop :=
  exists props,
    v = JObject props
    /\ lookup "lineNumber" props = JString lineNumber
    /\ lookup "reviewComment" props = reviewComment.

(** The comment [analyzeCode] makes of a finding of [file]. *)
Definition commentOf (file : File.t) (finding : string * JSValue) : Comment :=
  {| body := snd finding;
     path := File.to file;
     line := StringToNumber (fst finding) |}.

(** The actions of a trace. *)
Definition actions (t : list Event) : list Action := map action t.

Definition is_submission (a : Action) : bool :=
  match a with CreateReview _ _ _ _ => true | _ => false end.

Definition is_parse (a : Action) : bool :=
  match a with ParseDiff _ => true | _ => false end.

Definition is_inference (a : Action) : bool :=
  match a with ChatCompletionsCreate _ => true | _ => false end.

Definition is_prompt (a : Action) : bool :=
  match a with CreatePrompt _ => true | _ => false end.

(** The action field of the event payload, as [main] reads it. *)
Definition eventAction (w : Env) : Completion JSValue :=
  match readFileSync w (nullish (GITHUB_EVENT_PATH w) EmptyString) with
  | Throw e => Throw e
  | Normal text =>
      match JSON_parse w text with
      | Throw e => Throw e
      | Normal eventData => Get eventData "action"
      end
  end.

Definition supported (action : JSValue) : bool :=
  strict_equals_string action "opened" || strict_equals_string action "synchronize".

Definition event (a : Action) : Event := {| scope := None; action := a |}.

Definition scoped (file : File.t) (a : Action) : Event :=
  {| scope := Some file; action := a |}.

(** An event outside the review of the diff: in no file's scope, and
    neither a parse, a prompt, an inference call nor a submission. *)
Definition outside_review (ev : Event) : Prop :=
  scope ev = None
  /\ is_parse (action ev) = false
  /\ is_prompt (action ev) = false
  /\ is_inference (action ev) = false
  /\ is_submission (action ev) = false.

(** The submissions of a trace. *)
Definition submissions (t : list Event) : list Event :=
  filter (fun ev => is_submission (action ev)) t.

(** The files left by the pattern filter that are no deletion. *)
Definition survivors (w : Env) (parsedDiff : list File.t) : list File.t :=
  filter (fun file => negb (is_deleted file)) (filteredDiff w parsedDiff).

(** [!diff] *)
Definition no_content (diff : option string) : bool :=
  match diff with
  | None => true
  | Some text => text =? EmptyString
  end.

(** * Concrete runs

    Worlds to evaluate the program in.  Their [JSON_parse] knows the texts
    that occur in them and takes every other text for no JSON; their
    [minimatch] opens as the package does (a pattern that starts with [#]
    matches nothing, the empty pattern matches the empty path and no other)
    and decides the one glob of the scenarios, [*.yaml]; their [parseDiff]
    answers with the files of the scenario.  No finding in them has an array
    or an object for a line number, so [ToPrimitive] is never asked. *)
Module Scenario.

Definition q (s : string) : string := dquote ++ s ++ dquote.

Definition event_path : string := "/github/workflow/event.json".

Definition event_text (action : string) : string :=
  "{" ++ q "action" ++ ":" ++ q action ++ "," ++ q "number" ++ ":7,"
  ++ q "repository" ++ ":{" ++ q "name" ++ ":" ++ q "demo" ++ ","
  ++ q "owner" ++ ":{" ++ q "login" ++ ":" ++ q "octo" ++ "}}}".

Definition event_value (action : string) : JSValue :=
  JObject [ ("action", JString action);
            ("number", JNumber (Finite false 7));
            ("repository",
              JObject [ ("name", JString "demo");
                        ("owner", JObject [("login", JString "octo")]) ]) ].

Definition finding_text (lineNumber reviewComment : string) : string :=
  "{" ++ q "reviews" ++ ":[{" ++ q "lineNumber" ++ ":" ++ q lineNumber ++ ","
  ++ q "reviewComment" ++ ":" ++ q reviewComment ++ "}]}".

Definition finding_value (lineNumber reviewComment : string) : JSValue :=
  JObject [ ("reviews",
              JArray [ JObject [ ("lineNumber", JString lineNumber);
                                 ("reviewComment", JString reviewComment) ] ]) ].

Definition reviews_5_text : string := "{" ++ q "reviews" ++ ":5}".
Definition reviews_5_value : JSValue := JObject [("reviews", JNumber (Finite false 5))].

Definition no_json_text : string := "I have no remarks on this file.".

Definition json_table : list (string * JSValue) :=
  [ (event_text "opened", event_value "opened");
    (event_text "closed", event_value "closed");
    (finding_text "1" "Prefer const.", finding_value "1" "Prefer const.");
    (finding_text "2" "Unused import.", finding_value "2" "Unused import.");
    (reviews_5_text, reviews_5_value);
    ("{}", JObject []) ].

Fixpoint parse_table (table : list (string * JSValue)) (text : string)
  : Completion JSValue :=
  match table with
  | [] => Throw SyntaxError
  | (t, v) :: rest => if text =? t then Normal v else parse_table rest text
  end.

Definition minimatch_entry (p pattern : string) : bool :=
  match strip_prefix "#" pattern with
  | Some _ => false
  | None =>
      if pattern =? EmptyString then p =? EmptyString
      else (pattern =? "*.yaml") && (p =? "config.yaml")
  end.

Definition answer (text : string) : Completion OpenAI.ChatCompletion :=
  Normal {| OpenAI.choices :=
              [ {| OpenAI.message := Some {| OpenAI.content := Some text |} |} ] |}.

Definition metadata : Completion PullData :=
  Normal {| data_title := Some "Add a.ts"; data_body := None |}.

Definition details : PRDetails :=
  {| owner := JString "octo"; repo := JString "demo";
     pull_number := JNumber (Finite false 7);
     title := "Add a.ts"; description := EmptyString |}.

Definition world (action : string) (meta : Completion PullData)
           (diff : Completion (option string)) (exclude : string)
           (files : list File.t)
           (answers : nat -> Completion OpenAI.ChatCompletion) : Env :=
  {| GITHUB_EVENT_PATH := Some event_path;
     GITHUB_EVENT_NAME := Some "pull_request";
     readFileSync := fun p => if p =? event_path then Normal (event_text action)
                              else Throw (Fault "ENOENT");
     JSON_parse := parse_table json_table;
     ToPrimitive := fun _ => Normal "[object Object]";
     getInput := fun name => if name =? "exclude" then exclude else EmptyString;
     pulls_get := fun _ _ _ => meta;
     pulls_get_diff := fun _ _ _ => diff;
     pulls_createReview := fun _ _ _ _ => Normal tt;
     parseDiff := fun _ => files;
     minimatch := minimatch_entry;
     chat_completions_create := fun n _ => answers n |}.

Definition added_line : Chunk.t :=
  {| Chunk.content := "@@ -0,0 +1 @@";
     Chunk.changes := [AddChange 1 "+let x = 1;"] |}.

Definition file_a : File.t := {| File.to := Some "a.ts"; File.chunks := [added_line] |}.
Definition file_b : File.t := {| File.to := Some "b.ts"; File.chunks := [added_line] |}.
Definition file_yaml : File.t :=
  {| File.to := Some "config.yaml"; File.chunks := [added_line] |}.
Definition file_deleted : File.t :=
  {| File.to := Some "/dev/null";
     File.chunks := [ {| Chunk.content := "@@ -1 +0,0 @@";
                         Chunk.changes := [DeleteChange 1 "-let x = 1;"] |} ] |}.
Definition file_unnamed : File.t := {| File.to := None; File.chunks := [added_line] |}.

Definition diff_text : string := "diff --git a/a.ts b/a.ts".

(** The service answers the first call with one finding and the second
    with a [reviews] member that is the number 5. *)
Definition answers_then_5 (n : nat) : Completion OpenAI.ChatCompletion :=
  match n with
  | O => answer (finding_text "1" "Prefer const.")
  | _ => answer reviews_5_text
  end.

(** One finding on the first call, text that is no JSON on the second. *)
Definition answers_then_prose (n : nat) : Completion OpenAI.ChatCompletion :=
  match n with
  | O => answer (finding_text "1" "Prefer const.")
  | _ => answer no_json_text
  end.

(** One finding on each of the first two calls. *)
Definition answers_two (n : nat) : Completion OpenAI.ChatCompletion :=
  match n with
  | O => answer (finding_text "1" "Prefer const.")
  | _ => answer (finding_text "2" "Unused import.")
  end.

Definition opened (exclude : string) (files : list File.t)
           (answers : nat -> Completion OpenAI.ChatCompletion) : Env :=
  world "opened" metadata (Normal (Some diff_text)) exclude files answers.


Definition comment_a : Comment :=
  {| body := JString "Prefer const."; path := Some "a.ts"; line := Finite false 1 |}.

Definition comment_b : Comment :=
  {| body := JString "Unused import."; path := Some "b.ts"; line := Finite false 2 |}.

(** The events of the metadata request. *)
Definition trace_details : list Event :=
  [ event (ReadFile event_path);
    event (PullsGet (JString "octo") (JString "demo") (JNumber (Finite false 7))) ].

(** The events of the iteration of [file] in which the call goes through. *)
Definition trace_file (file : File.t) : list Event :=
  [ scoped file (CreatePrompt (createPrompt file (File.chunks file) details));
    scoped file (ChatCompletionsCreate (createPrompt file (File.chunks file) details)) ].

End Scenario.


(** * Further notions, for the functions around the loop *)

Definition is_metadata_request (a : Action) : bool :=
  match a with PullsGet _ _ _ => true | _ => false end.

Definition is_diff_request (a : Action) : bool :=
  match a with PullsGetDiff _ _ _ => true | _ => false end.

Definition is_logged_error (a : Action) : bool :=
  match a with ConsoleError _ => true | _ => false end.

(** The owner, repository and number a request to the host is made for. *)
Definition addressee (a : Action) : option (JSValue * JSValue * JSValue) :=
  match a with
  | PullsGet o r p => Some (o, r, p)
  | PullsGetDiff o r p => Some (o, r, p)
  | CreateReview o r p _ => Some (o, r, p)
  | _ => None
  end.

(** The content of the first choice is absent or blank. *)
Definition blank_content (choice : OpenAI.Choice) : Prop :=
  match OpenAI.message choice with
  | None => True
  | Some m =>
      match OpenAI.content m with
      | None => True
      | Some s => trim s = EmptyString
      end
  end.

(** The n-th call, made for [file], is answered in a way the loop takes
    in: with a fault, with a value whose [reviews] is falsy, or with an array
    of findings as the response schema has them. *)
Inductive Answered (w : Env) (d : PRDetails) (n : nat) (file : File.t) : Prop :=
| answered_fault e :
    reviewsOf w n (createPrompt file (File.chunks file) d) = Throw e ->
    Answered w d n file
| answered_nothing v :
    reviewsOf w n (createPrompt file (File.chunks file) d) = Normal v ->
    truthy v = false -> Answered w d n file
| answered_findings elements :
    reviewsOf w n (createPrompt file (File.chunks file) d) = Normal (JArray elements) ->
    Forall (fun v => exists lineNumber reviewComment, is_finding v lineNumber reviewComment)
           elements ->
    Answered w d n file.

(** The prompt compiled for a file. *)
Definition promptOf (d : PRDetails) (file : File.t) : string :=
  createPrompt file (File.chunks file) d.


(** A value that [Number] converts without asking for a primitive. *)
Definition primitive (v : JSValue) : bool :=
  match v with
  | JArray _ | JObject _ => false
  | _ => true
  end.

(** A string that starts with none of the white space sequences. *)
Definition no_leading_space (s : string) : Prop := strip_any WhiteSpace s = None.

(** A string that ends with none of the white space sequences. *)
Definition no_trailing_space (s : string) : Prop :=
  strip_any (map string_rev WhiteSpace) (string_rev s) = None.

(** The number of commas of a string. *)
Fixpoint commas (s : string) : nat :=
  match s with
  | EmptyString => O
  | String c s' => if Ascii.eqb c ","%char then S (commas s') else commas s'
  end.

(** The requests to the host in a trace, in order. *)
Definition host_requests (t : list Event) : list Action :=
  filter (fun a => match addressee a with Some _ => true | None => false end) (actions t).

(** No call finds anything: each is rejected or fails to parse, or gives a
    falsy [reviews], or the empty array. *)
Definition nothing_found (w : Env) : Prop :=
  forall n prompt,
    match reviewsOf w n prompt with
    | Throw _ => True
    | Normal v => truthy v = false \/ v = JArray []
    end.

(** The lines a chunk gives to the diff block of the prompt: an empty line,
    the header, and a line for each change (one empty line when there is no
    change). *)
Definition chunk_lines (chunk : Chunk.t) : list string :=
  EmptyString :: Chunk.content chunk
  :: match Chunk.changes chunk with
     | [] => [EmptyString]
     | changes => map renderChange changes
     end.

(** The value of a decimal numeral read from the left, on top of [acc], as
    [digits] accumulates it. *)
Fixpoint horner (d : Decimal.uint) (acc : N) : N :=
  match d with
  | Decimal.Nil => acc
  | Decimal.D0 d => horner d (acc * 10 + 0)
  | Decimal.D1 d => horner d (acc * 10 + 1)
  | Decimal.D2 d => horner d (acc * 10 + 2)
  | Decimal.D3 d => horner d (acc * 10 + 3)
  | Decimal.D4 d => horner d (acc * 10 + 4)
  | Decimal.D5 d => horner d (acc * 10 + 5)
  | Decimal.D6 d => horner d (acc * 10 + 6)
  | Decimal.D7 d => horner d (acc * 10 + 7)
  | Decimal.D8 d => horner d (acc * 10 + 8)
  | Decimal.D9 d => horner d (acc * 10 + 9)
  end%N.

Definition is_digit (c : ascii) : bool :=
  let n := N_of_ascii c in (48 <=? n)%N && (n <=? 57)%N.

Fixpoint digits_only (s : string) : bool :=
  match s with
  | EmptyString => true
  | String c s' => is_digit c && digits_only s'
  end.

(** The line number as a JavaScript number. *)
Definition lineNumberOf (n : N) : JSNumber := Finite false (inject_Z (Z.of_N n)).

(** * Further concrete runs

    The worlds of [Scenario] with another event payload or with a
    [JSON_parse] that knows more texts. *)
Module Further.

Definition with_payload (w : Env) (text : string) : Env :=
  {| GITHUB_EVENT_PATH := GITHUB_EVENT_PATH w;
     GITHUB_EVENT_NAME := GITHUB_EVENT_NAME w;
     readFileSync := fun p => if p =? Scenario.event_path then Normal text
                              else Throw (Fault "ENOENT");
     JSON_parse := JSON_parse w;
     ToPrimitive := ToPrimitive w;
     getInput := getInput w;
     pulls_get := pulls_get w;
     pulls_get_diff := pulls_get_diff w;
     pulls_createReview := pulls_createReview w;
     parseDiff := parseDiff w;
     minimatch := minimatch w;
     chat_completions_create := chat_completions_create w |}.

Definition with_JSON_parse (w : Env) (parse : string -> Completion JSValue) : Env :=
  {| GITHUB_EVENT_PATH := GITHUB_EVENT_PATH w;
     GITHUB_EVENT_NAME := GITHUB_EVENT_NAME w;
     readFileSync := readFileSync w;
     JSON_parse := parse;
     ToPrimitive := ToPrimitive w;
     getInput := getInput w;
     pulls_get := pulls_get w;
     pulls_get_diff := pulls_get_diff w;
     pulls_createReview := pulls_createReview w;
     parseDiff := parseDiff w;
     minimatch := minimatch w;
     chat_completions_create := chat_completions_create w |}.

(** A payload without [repository]. *)
Definition bare_payload_text : string :=
  "{" ++ Scenario.q "action" ++ ":" ++ Scenario.q "opened" ++ ","
  ++ Scenario.q "number" ++ ":7}".

Definition bare_payload_props : list (string * JSValue) :=
  [ ("action", JString "opened"); ("number", JNumber (Finite false 7)) ].

(** An answer whose second finding is [null]. *)
Definition null_finding_text : string :=
  "{" ++ Scenario.q "reviews" ++ ":[{" ++ Scenario.q "lineNumber" ++ ":"
  ++ Scenario.q "1" ++ "," ++ Scenario.q "reviewComment" ++ ":"
  ++ Scenario.q "Prefer const." ++ "},null]}".

Definition null_finding_elements : list JSValue :=
  [ JObject [ ("lineNumber", JString "1"); ("reviewComment", JString "Prefer const.") ];
    JNull ].

Definition json_table : list (string * JSValue) :=
  (Scenario.json_table
     ++ [ (bare_payload_text, JObject bare_payload_props);
          (null_finding_text, JObject [("reviews", JArray null_finding_elements)]) ])%list.

Definition opened (files : list File.t)
           (answers : nat -> Completion OpenAI.ChatCompletion) : Env :=
  with_JSON_parse (Scenario.opened EmptyString files answers)
                  (Scenario.parse_table json_table).

(** The service rejects every call. *)
Definition outage (n : nat) : Completion OpenAI.ChatCompletion :=
  Throw (Fault "Service Unavailable").

(** The content of every answer is two spaces and a line break. *)
Definition blank_choice : OpenAI.Choice :=
  {| OpenAI.message := Some {| OpenAI.content := Some (bytes [32; 32; 10]%N) |} |}.

Definition blank_response : OpenAI.ChatCompletion :=
  {| OpenAI.choices := [blank_choice] |}.

Definition blank_answers (n : nat) : Completion OpenAI.ChatCompletion :=
  Normal blank_response.

Definition null_finding_answers (n : nat) : Completion OpenAI.ChatCompletion :=
  Scenario.answer null_finding_text.

End Further.

(** * The inference client and the loop, step by step *)

Lemma getAIResponse_run (w : Env) (prompt : string) (n : nat) :
  getAIResponse w prompt n =
  match reviewsOf w n prompt with
  | Normal v => ([event (ChatCompletionsCreate prompt)], Normal v, S n)
  | Throw e =>
      ([event (ChatCompletionsCreate prompt); event (ConsoleError e)], Normal JNull, S n)
  end.
Proof.
  unfold getAIResponse, reviewsOf, try_catch, bind, create, lift, emit, ret, event.
  destruct (chat_completions_create w n prompt) as [response|e]; simpl; [|reflexivity].
  destruct (responseText response) as [res|e]; simpl; [|reflexivity].
  destruct (JSON_parse w res) as [parsed|e]; simpl; [|reflexivity].
  destruct (Get parsed "reviews"); reflexivity.
Qed.

(** The catch clause leaves no fault to the caller. *)
Lemma getAIResponse_total (w : Env) (prompt : string) (n : nat) :
  exists t v, getAIResponse w prompt n = (t, Normal v, S n).
Proof.
  rewrite getAIResponse_run. destruct (reviewsOf w n prompt); eauto.
Qed.

Lemma analyzeFile_run (w : Env) (d : PRDetails) (file : File.t)
      (comments : list Comment) (n : nat) :
  analyzeFile w d file comments n =
  if is_deleted file then ([], Normal comments, n)
  else
    let prompt := createPrompt file (File.chunks file) d in
    match reviewsOf w n prompt with
    | Throw e =>
        ([scoped file (CreatePrompt prompt); scoped file (ChatCompletionsCreate prompt);
          scoped file (ConsoleError e)], Normal comments, S n)
    | Normal v =>
        ([scoped file (CreatePrompt prompt); scoped file (ChatCompletionsCreate prompt)],
         (if truthy v then
            match newComments w file v with
            | Normal new => Normal (comments ++ new)%list
            | Throw e => Throw e
            end
          else Normal comments),
         S n)
    end.
Proof.
  unfold analyzeFile. destruct (is_deleted file); [reflexivity|].
  unfold in_iteration, bind at 1. unfold emit at 1. cbv zeta.
  unfold bind at 1. rewrite getAIResponse_run.
  destruct (reviewsOf w n (createPrompt file (File.chunks file) d)) as [v|e]; simpl.
  - destruct (truthy v); simpl; [|reflexivity].
    unfold bind, lift, ret. destruct (newComments w file v); reflexivity.
  - reflexivity.
Qed.

Lemma analyzeLoop_cons (w : Env) (d : PRDetails) (file : File.t) (rest : list File.t)
      (comments : list Comment) (n : nat) :
  analyzeLoop w d (file :: rest) comments n =
  match analyzeFile w d file comments n with
  | (t, Normal comments', n') =>
      let '(t', r, n'') := analyzeLoop w d rest comments' n' in ((t ++ t')%list, r, n'')
  | (t, Throw e, n') => (t, Throw e, n')
  end.
Proof. reflexivity. Qed.

Lemma map_completion_normal {A B} (f : A -> Completion B) (l : list A) (ys : list B) :
  map_completion f l = Normal ys -> map Normal ys = map f l.
Proof.
  revert ys. induction l as [|x l IH]; simpl; intros ys H.
  - inversion H. reflexivity.
  - destruct (f x) as [y|e]; [|discriminate].
    destruct (map_completion f l) as [ys'|e]; [|discriminate].
    inversion H; subst. simpl. now rewrite (IH ys').
Qed.

Lemma toComment_path (w : Env) (file : File.t) (v : JSValue) (c : Comment) :
  toComment w file v = Normal c -> path c = File.to file.
Proof.
  unfold toComment. intros H.
  destruct (Get v "reviewComment"); [|discriminate].
  destruct (Get v "lineNumber"); [|discriminate].
  destruct (ToNumber (ToPrimitive w) a0); [|discriminate].
  inversion H. reflexivity.
Qed.

Lemma newComments_normal (w : Env) (file : File.t) (v : JSValue) (new : list Comment) :
  newComments w file v = Normal new ->
  exists elements,
    v = JArray elements
    /\ map Normal new = map (toComment w file) elements
    /\ forall c, In c new -> path c = File.to file.
Proof.
  intros H. destruct v; try discriminate. simpl in H.
  exists elements. split; [reflexivity|].
  pose proof (map_completion_normal _ _ _ H) as Hmap. split; [exact Hmap|].
  intros c Hc.
  assert (Hin : In (Normal c) (map (toComment w file) elements)).
  { rewrite <- Hmap. now apply in_map. }
  apply in_map_iff in Hin. destruct Hin as [x [Hx _]].
  now apply toComment_path with (w := w) (v := x).
Qed.

Lemma processed_cons (n : nat) (file : File.t) (rest : list File.t) :
  processed n (file :: rest) =
  if is_deleted file then processed n rest else (n, file) :: processed (S n) rest.
Proof.
  unfold processed. simpl. destruct (is_deleted file); reflexivity.
Qed.

(** One iteration: where its actions are scoped, what it adds to the
    comments, and how far it moves the count of calls. *)
Lemma analyzeFile_step (w : Env) (d : PRDetails) (file : File.t)
      (comments : list Comment) (n : nat) t r n' :
  analyzeFile w d file comments n = (t, r, n') ->
  (forall ev, In ev t -> scope ev = Some file /\ is_deleted file = false)
  /\ n' = (if is_deleted file then n else S n)
  /\ forall result, r = Normal result ->
       exists new,
         result = (comments ++ new)%list
         /\ (forall c, In c new -> path c = File.to file /\ is_deleted file = false)
         /\ map Normal new =
            (if is_deleted file then []
             else map (toComment w file) (findings w d n file)).
Proof.
  rewrite analyzeFile_run. unfold findings.
  destruct (is_deleted file) eqn:Hdel.
  - intros H; inversion H; subst. repeat split; try contradiction.
    intros result Hr; inversion Hr; subst. exists []. rewrite app_nil_r.
    repeat split; contradiction.
  - cbv zeta.
    destruct (reviewsOf w n (createPrompt file (File.chunks file) d)) as [v|e].
    + intros H; inversion H; subst; clear H. split; [|split; [reflexivity|]].
      * simpl. intros ev [<-|[<-|[]]]; split; reflexivity.
      * intros result Hr. destruct (truthy v) eqn:Htruthy.
        -- destruct (newComments w file v) as [new|e] eqn:Hnew; [|discriminate].
           inversion Hr; subst.
           destruct (newComments_normal _ _ _ _ Hnew) as [elements [-> [Hmap Hpath]]].
           exists new. repeat split; auto.
        -- inversion Hr; subst. exists []. rewrite app_nil_r.
           repeat split; try contradiction.
           destruct v; try reflexivity; discriminate.
    + intros H; inversion H; subst; clear H. split; [|split; [reflexivity|]].
      * simpl. intros ev [<-|[<-|[<-|[]]]]; split; reflexivity.
      * intros result Hr. inversion Hr; subst. exists []. rewrite app_nil_r.
        repeat split; contradiction.
Qed.

(** The loop: every action is scoped in a file of the list that is no
    deletion; the comments gathered before are kept in front; what is added
    is each processed file's findings, converted in order. *)
Lemma analyzeLoop_spec (w : Env) (d : PRDetails) (files : list File.t) :
  forall (comments : list Comment) (n : nat) t r n',
    analyzeLoop w d files comments n = (t, r, n') ->
    (forall ev, In ev t ->
       exists file, scope ev = Some file /\ In file files /\ is_deleted file = false)
    /\ forall result, r = Normal result ->
         exists new,
           result = (comments ++ new)%list
           /\ (forall c, In c new ->
                 exists file, In file files /\ is_deleted file = false
                              /\ path c = File.to file)
           /\ map Normal new = commentsInOrder w d n files.
Proof.
  induction files as [|file rest IH]; intros comments n t r n' H.
  - inversion H; subst. split; [intros ev []|].
    intros result Hr; inversion Hr; subst. exists []. rewrite app_nil_r.
    repeat split. intros c [].
  - rewrite analyzeLoop_cons in H.
    destruct (analyzeFile w d file comments n) as [[t1 r1] n1] eqn:Hfile.
    destruct (analyzeFile_step _ _ _ _ _ _ _ _ Hfile) as [Hscope [Hn1 Hres]].
    destruct r1 as [comments1|e].
    + destruct (analyzeLoop w d rest comments1 n1) as [[t2 r2] n2] eqn:Hrest.
      inversion H; subst t r n'; clear H.
      destruct (IH _ _ _ _ _ Hrest) as [Hscope2 Hres2].
      destruct (Hres _ eq_refl) as [new1 [-> [Hpath1 Hmap1]]].
      split.
      * intros ev Hev. apply in_app_or in Hev. destruct Hev as [Hev|Hev].
        -- destruct (Hscope _ Hev) as [Hs Hd]. exists file. simpl. auto.
        -- destruct (Hscope2 _ Hev) as [f [Hs [Hin Hd]]]. exists f. simpl. auto.
      * intros result Hr.
        destruct (Hres2 _ Hr) as [new2 [-> [Hpath2 Hmap2]]].
        exists (new1 ++ new2)%list. split; [now rewrite app_assoc|]. split.
        -- intros c Hc. apply in_app_or in Hc. destruct Hc as [Hc|Hc].
           ++ destruct (Hpath1 _ Hc) as [Hp Hd]. exists file. simpl. auto.
           ++ destruct (Hpath2 _ Hc) as [f [Hin [Hd Hp]]]. exists f. simpl. auto.
        -- rewrite map_app, Hmap1, Hmap2. unfold commentsInOrder.
           rewrite processed_cons. subst n1.
           destruct (is_deleted file); reflexivity.
    + inversion H; subst t r n'; clear H. split.
      * intros ev Hev. destruct (Hscope _ Hev) as [Hs Hd]. exists file. simpl. auto.
      * intros result Hr. discriminate.
Qed.

(** * The run of [main], step by step *)

Lemma getPRDetails_outside_review (w : Env) (n : nat) t r n' :
  getPRDetails w n = (t, r, n') -> n' = n /\ Forall outside_review t.
Proof.
  unfold getPRDetails, call, bind, emit, lift, ret. cbv zeta.
  assert (Hread : forall p, outside_review {| scope := None; action := ReadFile p |})
    by (intro; repeat split).
  assert (Hget : forall a b c, outside_review {| scope := None; action := PullsGet a b c |})
    by (intros; repeat split).
  repeat match goal with
         | |- context [match ?c with Normal _ => _ | Throw _ => _ end] =>
             destruct c; simpl
         end;
    intros H; inversion H; subst; split; auto; repeat constructor; auto.
Qed.

Lemma review_run (w : Env) (d : PRDetails) (diff : string) (n : nat) :
  review w d diff n =
  match analyzeCode w (filteredDiff w (parseDiff w diff)) d n with
  | (t, Normal [], n') => (event (ParseDiff diff) :: t, Normal tt, n')
  | (t, Normal (c :: cs), n') =>
      ((event (ParseDiff diff) :: t)
         ++ [event (CreateReview (owner d) (repo d) (pull_number d) (c :: cs))],
       pulls_createReview w (owner d) (repo d) (pull_number d) (c :: cs), n')%list
  | (t, Throw e, n') => (event (ParseDiff diff) :: t, Throw e, n')
  end.
Proof.
  unfold review, bind at 1. unfold emit at 1. unfold bind.
  destruct (analyzeCode w (filteredDiff w (parseDiff w diff)) d n) as [[t [cs|e]] n'].
  - destruct cs as [|c cs]; simpl.
    + now rewrite app_nil_r.
    + unfold createReviewComment, call, bind, emit, lift, event. simpl.
      reflexivity.
  - reflexivity.
Qed.

(** [main] after [getPRDetails]. *)
Lemma main_run (w : Env) (n : nat) :
  main w n =
  match getPRDetails w n with
  | (t0, Throw e, n0) => (t0, Throw e, n0)
  | (t0, Normal d, n0) =>
      let read := event (ReadFile (nullish (GITHUB_EVENT_PATH w) EmptyString)) in
      let fetch := event (PullsGetDiff (owner d) (repo d) (pull_number d)) in
      match eventAction w with
      | Throw e => (t0 ++ [read], Throw e, n0)%list
      | Normal a =>
          if supported a then
            match pulls_get_diff w (owner d) (repo d) (pull_number d) with
            | Throw e => (t0 ++ [read; fetch], Throw e, n0)%list
            | Normal diff =>
                if no_content diff then
                  (t0 ++ [read; fetch; event (ConsoleLog [JString "No diff found"])],
                   Normal tt, n0)%list
                else
                  let '(t, r, n') := review w d (nullish diff EmptyString) n0 in
                  (t0 ++ [read; fetch] ++ t, r, n')%list
            end
          else
            (t0 ++ [read; event (ConsoleLog [JString "Unsupported event:"; env_name w])],
             Normal tt, n0)%list
      end
  end.
Proof.
  unfold main, bind at 1.
  destruct (getPRDetails w n) as [[t0 [d|e]] n0]; [|reflexivity].
  cbv zeta. unfold eventAction, call, getDiff, call, bind, emit, lift, event, supported.
  simpl.
  destruct (readFileSync w (nullish (GITHUB_EVENT_PATH w) EmptyString)) as [text|e];
    simpl; [|reflexivity].
  destruct (JSON_parse w text) as [eventData|e]; simpl; [|reflexivity].
  destruct (Get eventData "action") as [a|e]; simpl; [|reflexivity].
  destruct (strict_equals_string a "opened" || strict_equals_string a "synchronize");
    simpl; [|reflexivity].
  destruct (pulls_get_diff w (owner d) (repo d) (pull_number d)) as [diff|e];
    simpl; [|reflexivity].
  destruct diff as [text'|]; simpl; [|reflexivity].
  destruct (text' =? EmptyString); simpl; [reflexivity|].
  destruct (review w d text' n0) as [[t r] n']. reflexivity.
Qed.

(** The actions of the loop are prompts, inference calls and logged errors. *)
Lemma analyzeLoop_actions (w : Env) (d : PRDetails) (files : list File.t) :
  forall (comments : list Comment) (n : nat) t r n',
    analyzeLoop w d files comments n = (t, r, n') ->
    forall ev, In ev t ->
      is_submission (action ev) = false /\ is_parse (action ev) = false.
Proof.
  induction files as [|file rest IH]; intros comments n t r n' H ev Hev.
  - inversion H; subst. destruct Hev.
  - rewrite analyzeLoop_cons, analyzeFile_run in H.
    assert (Hfile : forall t1 r1 n1,
      (if is_deleted file then ([], Normal comments, n)
       else
         let prompt := createPrompt file (File.chunks file) d in
         match reviewsOf w n prompt with
         | Throw e =>
             ([scoped file (CreatePrompt prompt);
               scoped file (ChatCompletionsCreate prompt);
               scoped file (ConsoleError e)], Normal comments, S n)
         | Normal v =>
             ([scoped file (CreatePrompt prompt);
               scoped file (ChatCompletionsCreate prompt)],
              (if truthy v then
                 match newComments w file v with
                 | Normal new => Normal (comments ++ new)%list
                 | Throw e => Throw e
                 end
               else Normal comments), S n)
         end) = (t1, r1, n1) ->
      forall ev, In ev t1 ->
        is_submission (action ev) = false /\ is_parse (action ev) = false).
    { intros t1 r1 n1 H1 ev1 Hev1. destruct (is_deleted file).
      - inversion H1; subst. destruct Hev1.
      - cbv zeta in H1.
        destruct (reviewsOf w n (createPrompt file (File.chunks file) d));
          inversion H1; subst; simpl in Hev1;
          repeat (destruct Hev1 as [<-|Hev1]; [split; reflexivity|]);
          destruct Hev1. }
    match type of H with
    | match ?x with _ => _ end = _ => destruct x as [[t1 r1] n1] eqn:Hx
    end.
    specialize (Hfile _ _ _ eq_refl).
    destruct r1 as [comments1|e].
    + destruct (analyzeLoop w d rest comments1 n1) as [[t2 r2] n2] eqn:Hrest.
      inversion H; subst. apply in_app_or in Hev. destruct Hev as [Hev|Hev].
      * now apply Hfile.
      * now apply (IH _ _ _ _ _ Hrest).
    + inversion H; subst. now apply Hfile.
Qed.

Lemma analyzeLoop_deleted (w : Env) (d : PRDetails) (files : list File.t) :
  filter (fun file => negb (is_deleted file)) files = [] ->
  forall comments n, analyzeLoop w d files comments n = ([], Normal comments, n).
Proof.
  induction files as [|file rest IH]; intros Hnone comments n; [reflexivity|].
  simpl in Hnone. rewrite analyzeLoop_cons, analyzeFile_run.
  destruct (is_deleted file); [|discriminate]. simpl in Hnone.
  now rewrite (IH Hnone).
Qed.

(** The trace of the process: events outside the review, and between them,
    when the diff is reviewed, the parse, the loop of [analyzeCode] on the
    filtered diff, and at most one submission, of the comments the loop
    returned, which are then not empty. *)
Lemma program_shape (w : Env) :
  exists t0 t2,
    Forall outside_review t0 /\ Forall outside_review t2
    /\ (fst (program w) = (t0 ++ t2)%list
        \/ exists d diff ta ra n' sub,
             analyzeCode w (filteredDiff w (parseDiff w diff)) d O = (ta, ra, n')
             /\ fst (program w) = (t0 ++ event (ParseDiff diff) :: ta ++ sub ++ t2)%list
             /\ (sub = []
                 \/ exists c cs,
                      ra = Normal (c :: cs)
                      /\ sub = [event (CreateReview (owner d) (repo d) (pull_number d)
                                                    (c :: cs))])).
Proof.
  assert (Hlog : forall l, outside_review (event (ConsoleLog l))) by (intro; repeat split).
  assert (Herr : forall e, outside_review (event (ConsoleError e))) by (intro; repeat split).
  assert (Hread : forall x, outside_review (event (ReadFile x))) by (intro; repeat split).
  assert (Hfetch : forall a b c, outside_review (event (PullsGetDiff a b c)))
    by (intros; repeat split).
  unfold program. rewrite main_run.
  destruct (getPRDetails w O) as [[t0 [d|e]] n0] eqn:Hd;
    destruct (getPRDetails_outside_review _ _ _ _ _ Hd) as [-> Ht0].
  2:{ exists t0, [event (ConsoleError e)]. repeat split; auto. }
  cbv zeta. destruct (eventAction w) as [a|e].
  2:{ exists (t0 ++ [event (ReadFile (nullish (GITHUB_EVENT_PATH w) EmptyString))])%list,
        [event (ConsoleError e)].
      split; [apply Forall_app; auto|]. split; [auto|]. left. reflexivity. }
  destruct (supported a).
  2:{ exists (t0 ++ [event (ReadFile (nullish (GITHUB_EVENT_PATH w) EmptyString));
                     event (ConsoleLog [JString "Unsupported event:"; env_name w])])%list, [].
      split; [apply Forall_app; auto|]. split; [auto|]. left. simpl.
      now rewrite app_nil_r. }
  destruct (pulls_get_diff w (owner d) (repo d) (pull_number d)) as [diff|e].
  2:{ exists (t0 ++ [event (ReadFile (nullish (GITHUB_EVENT_PATH w) EmptyString));
                     event (PullsGetDiff (owner d) (repo d) (pull_number d))])%list,
        [event (ConsoleError e)].
      split; [apply Forall_app; auto|]. split; [auto|]. left. reflexivity. }
  destruct (no_content diff).
  { exists (t0 ++ [event (ReadFile (nullish (GITHUB_EVENT_PATH w) EmptyString));
                   event (PullsGetDiff (owner d) (repo d) (pull_number d));
                   event (ConsoleLog [JString "No diff found"])])%list, [].
    split; [apply Forall_app; auto|]. split; [auto|]. left. simpl.
    now rewrite app_nil_r. }
  rewrite review_run.
  set (text := nullish diff EmptyString).
  set (pre := (t0 ++ [event (ReadFile (nullish (GITHUB_EVENT_PATH w) EmptyString));
                      event (PullsGetDiff (owner d) (repo d) (pull_number d))])%list).
  assert (Hpre : Forall outside_review pre) by (apply Forall_app; auto).
  destruct (analyzeCode w (filteredDiff w (parseDiff w text)) d O)
    as [[ta [cs|e]] n'] eqn:Ha.
  - destruct cs as [|c cs].
    + exists pre, []. split; [auto|]. split; [auto|]. right.
      exists d, text, ta, (Normal []), n', []. split; [exact Ha|]. split; [|now left].
      unfold pre. simpl. rewrite <- app_assoc. simpl. now rewrite app_nil_r.
    + destruct (pulls_createReview w (owner d) (repo d) (pull_number d) (c :: cs)) as [[]|e].
      * exists pre, []. split; [auto|]. split; [auto|]. right.
        exists d, text, ta, (Normal (c :: cs)), n',
          [event (CreateReview (owner d) (repo d) (pull_number d) (c :: cs))].
        split; [exact Ha|]. split; [|right; eauto].
        unfold pre. simpl. rewrite <- !app_assoc. simpl. reflexivity.
      * exists pre, [event (ConsoleError e)]. split; [auto|]. split; [auto|]. right.
        exists d, text, ta, (Normal (c :: cs)), n',
          [event (CreateReview (owner d) (repo d) (pull_number d) (c :: cs))].
        split; [exact Ha|]. split; [|right; eauto].
        unfold pre. simpl. rewrite <- !app_assoc. simpl.
        rewrite <- !app_assoc. reflexivity.
  - exists pre, [event (ConsoleError e)]. split; [auto|]. split; [auto|]. right.
    exists d, text, ta, (Throw e), n', []. split; [exact Ha|]. split; [|now left].
    unfold pre. simpl. rewrite <- !app_assoc. simpl. reflexivity.
Qed.

Lemma outside_review_unscoped (t : list Event) (ev : Event) :
  Forall outside_review t -> In ev t ->
  scope ev = None /\ is_submission (action ev) = false.
Proof.
  intros Ht Hev. rewrite Forall_forall in Ht. destruct (Ht _ Hev) as [Hs [_ [_ [_ Hsub]]]].
  now split.
Qed.

Lemma submissions_app (t1 t2 : list Event) :
  submissions (t1 ++ t2) = (submissions t1 ++ submissions t2)%list.
Proof. apply filter_app. Qed.

Lemma submissions_none (t : list Event) :
  (forall ev, In ev t -> is_submission (action ev) = false) -> submissions t = [].
Proof.
  induction t as [|ev t IH]; intros H; [reflexivity|]. simpl.
  rewrite (H ev (or_introl eq_refl)). apply IH. intros ev' Hev'. apply H. now right.
Qed.

Lemma is_deleted_false (file : File.t) :
  is_deleted file = false -> File.to file <> Some "/dev/null".
Proof.
  unfold is_deleted. intros H Hto. rewrite Hto in H.
  simpl in H. discriminate.
Qed.

Lemma filteredDiff_In (w : Env) (parsedDiff : list File.t) (f : File.t) :
  In f (filteredDiff w parsedDiff) <->
  In f parsedDiff
  /\ existsb (fun pattern => minimatch w (nullish (File.to f) EmptyString) pattern)
             (excludePatterns w) = false.
Proof.
  unfold filteredDiff. rewrite filter_In, negb_true_iff. reflexivity.
Qed.

(** Every scoped event of the process is scoped in a file that passed the
    pattern filter and is no deletion. *)
Lemma program_scopes (w : Env) (ev : Event) (f : File.t) :
  In ev (fst (program w)) -> scope ev = Some f ->
  exists diff, In f (filteredDiff w (parseDiff w diff)) /\ is_deleted f = false.
Proof.
  intros Hev Hscope.
  destruct (program_shape w) as [t0 [t2 [Ht0 [Ht2 Hshape]]]].
  assert (Hout : forall t, Forall outside_review t -> In ev t -> False).
  { intros t Ht Hin. destruct (outside_review_unscoped _ _ Ht Hin) as [Hs _]. congruence. }
  destruct Hshape as [Ht|[d [diff [ta [ra [n' [sub [Ha [Ht Hsub]]]]]]]]];
    rewrite Ht in Hev.
  - apply in_app_or in Hev. destruct Hev; exfalso; eauto.
  - apply in_app_or in Hev. destruct Hev as [Hev|Hev]; [exfalso; eauto|].
    destruct Hev as [<-|Hev]; [discriminate|].
    apply in_app_or in Hev. destruct Hev as [Hev|Hev].
    + destruct (analyzeLoop_spec _ _ _ _ _ _ _ _ Ha) as [Hsc _].
      destruct (Hsc _ Hev) as [file [Hs [Hin Hdel]]].
      exists diff. assert (file = f) by congruence. subst. auto.
    + apply in_app_or in Hev. destruct Hev as [Hev|Hev]; [|exfalso; eauto].
      destruct Hsub as [->|[c [cs [_ ->]]]]; [destruct Hev|].
      destruct Hev as [<-|[]]. discriminate.
Qed.

(** Every submission of the process carries the comments that [analyzeCode]
    returned for the filtered diff, and they are not empty. *)
Lemma program_submission (w : Env) (o r p : JSValue) (cs : list Comment) :
  In (CreateReview o r p cs) (actions (fst (program w))) ->
  cs <> []
  /\ exists d diff t n',
       analyzeCode w (filteredDiff w (parseDiff w diff)) d O = (t, Normal cs, n').
Proof.
  unfold actions. intros Hin. apply in_map_iff in Hin. destruct Hin as [ev [Hact Hev]].
  destruct (program_shape w) as [t0 [t2 [Ht0 [Ht2 Hshape]]]].
  assert (Hout : forall t, Forall outside_review t -> In ev t -> False).
  { intros t Ht Hin. destruct (outside_review_unscoped _ _ Ht Hin) as [_ Hs].
    rewrite Hact in Hs. discriminate. }
  destruct Hshape as [Ht|[d [diff [ta [ra [n' [sub [Ha [Ht Hsub]]]]]]]]];
    rewrite Ht in Hev.
  - apply in_app_or in Hev. destruct Hev; exfalso; eauto.
  - apply in_app_or in Hev. destruct Hev as [Hev|Hev]; [exfalso; eauto|].
    destruct Hev as [<-|Hev]; [discriminate|].
    apply in_app_or in Hev. destruct Hev as [Hev|Hev].
    + destruct (analyzeLoop_actions _ _ _ _ _ _ _ _ Ha _ Hev) as [Hs _].
      rewrite Hact in Hs. discriminate.
    + apply in_app_or in Hev. destruct Hev as [Hev|Hev]; [|exfalso; eauto].
      destruct Hsub as [->|[c [cs' [-> ->]]]]; [destruct Hev|].
      destruct Hev as [<-|[]]. simpl in Hact. inversion Hact; subst.
      split; [discriminate|]. eauto.
Qed.

(** * The properties of the pipeline *)

(** C3. A file whose destination path matches at least one configured
    exclusion pattern is removed by the filter before the analysis: it is in
    no filtered diff, and no event of the run lies in its scope, so that no
    prompt is compiled for it and no inference call is made for it. *)
Theorem C3_excluded_file_not_analyzed (w : Env) (f : File.t) :
  existsb (fun pattern => minimatch w (nullish (File.to f) EmptyString) pattern)
          (excludePatterns w) = true ->
  (forall parsedDiff, ~ In f (filteredDiff w parsedDiff))
  /\ (forall ev, In ev (fst (program w)) -> scope ev <> Some f).
Proof.
  intros Hmatch. split.
  - intros parsedDiff Hin. apply filteredDiff_In in Hin. destruct Hin as [_ Hno].
    congruence.
  - intros ev Hev Hscope.
    destruct (program_scopes _ _ _ Hev Hscope) as [diff [Hin _]].
    apply filteredDiff_In in Hin. destruct Hin as [_ Hno]. congruence.
Qed.

(** C4. A file whose destination is the deletion sentinel [/dev/null]
    contributes nothing, whatever the exclusion patterns are: its iteration
    of the loop does nothing (no prompt, no inference call, the comments
    unchanged), no event of the run lies in its scope, and no submitted
    comment has the sentinel for its path. *)
Theorem C4_deleted_file_dropped (w : Env) (f : File.t) :
  File.to f = Some "/dev/null" ->
  (forall d comments n, analyzeFile w d f comments n = ([], Normal comments, n))
  /\ (forall ev, In ev (fst (program w)) -> scope ev <> Some f)
  /\ (forall o r p cs c,
        In (CreateReview o r p cs) (actions (fst (program w))) ->
        In c cs -> path c <> Some "/dev/null").
Proof.
  intros Hto.
  assert (Hdel : is_deleted f = true) by (unfold is_deleted; now rewrite Hto).
  split; [|split].
  - intros d comments n. rewrite analyzeFile_run, Hdel. reflexivity.
  - intros ev Hev Hscope.
    destruct (program_scopes _ _ _ Hev Hscope) as [diff [_ Hnot]]. congruence.
  - intros o r p cs c Hsub Hc Hpath.
    destruct (program_submission _ _ _ _ _ Hsub) as [_ [d [diff [t [n' Ha]]]]].
    destruct (analyzeLoop_spec _ _ _ _ _ _ _ _ Ha) as [_ Hres].
    destruct (Hres _ eq_refl) as [new [Hnew [Hpaths _]]].
    simpl in Hnew. subst new.
    destruct (Hpaths _ Hc) as [file [_ [Hnd Hp]]].
    apply is_deleted_false in Hnd. congruence.
Qed.

(** C5. The submission boundary is called at most once in a run, and only
    with the comments [analyzeCode] returned, which are then not empty; when
    no file is left after the pattern filter and the deletion test, the
    analysis returns no comment without a single inference call, and the rest
    of [main] parses the diff and submits nothing. *)
Theorem C5_at_most_one_submission (w : Env) :
  (length (submissions (fst (program w))) <= 1)%nat
  /\ (forall o r p cs,
        In (CreateReview o r p cs) (actions (fst (program w))) ->
        cs <> []
        /\ exists d diff t n',
             analyzeCode w (filteredDiff w (parseDiff w diff)) d O = (t, Normal cs, n'))
  /\ (forall d diff n,
        survivors w (parseDiff w diff) = [] ->
        analyzeCode w (filteredDiff w (parseDiff w diff)) d n = ([], Normal [], n)
        /\ review w d diff n = ([event (ParseDiff diff)], Normal tt, n)).
Proof.
  split; [|split].
  - destruct (program_shape w) as [t0 [t2 [Ht0 [Ht2 Hshape]]]].
    assert (Hnone : forall t, Forall outside_review t -> submissions t = []).
    { intros t Ht. apply submissions_none. intros ev Hev.
      now destruct (outside_review_unscoped _ _ Ht Hev). }
    destruct Hshape as [->|[d [diff [ta [ra [n' [sub [Ha [-> Hsub]]]]]]]]].
    + rewrite submissions_app, (Hnone _ Ht0), (Hnone _ Ht2). simpl. lia.
    + rewrite submissions_app, (Hnone _ Ht0). simpl.
      rewrite !submissions_app, (Hnone _ Ht2), app_nil_r.
      rewrite (submissions_none ta).
      2:{ intros ev Hev. now destruct (analyzeLoop_actions _ _ _ _ _ _ _ _ Ha _ Hev). }
      destruct Hsub as [->|[c [cs [_ ->]]]]; simpl; lia.
  - apply program_submission.
  - intros d diff n Hnone.
    assert (Ha : analyzeCode w (filteredDiff w (parseDiff w diff)) d n = ([], Normal [], n)).
    { unfold analyzeCode. now apply analyzeLoop_deleted. }
    split; [exact Ha|]. rewrite review_run, Ha. reflexivity.
Qed.

(** C8. The submitted comments keep the processing order: whatever the rest
    of [main] submits for a diff is, comment by comment, the findings of the
    first processed file of the filtered diff converted in the order the
    service returned them, then those of the second, and so on; nothing is
    reordered, merged or dropped.  The same holds of what [analyzeCode]
    returns for any list of files, and of every submission in the trace of
    the process. *)
Theorem C8_processing_order_kept (w : Env) :
  (forall d files n t cs n',
     analyzeCode w files d n = (t, Normal cs, n') ->
     map Normal cs = commentsInOrder w d n files)
  /\ (forall d diff n t r n' o rp p cs,
        review w d diff n = (t, r, n') ->
        In (CreateReview o rp p cs) (actions t) ->
        map Normal cs = commentsInOrder w d n (filteredDiff w (parseDiff w diff)))
  /\ (forall o rp p cs,
        In (CreateReview o rp p cs) (actions (fst (program w))) ->
        exists d diff,
          map Normal cs = commentsInOrder w d O (filteredDiff w (parseDiff w diff))).
Proof.
  assert (Hloop : forall d files n t cs n',
            analyzeCode w files d n = (t, Normal cs, n') ->
            map Normal cs = commentsInOrder w d n files).
  { intros d files n t cs n' Ha.
    destruct (analyzeLoop_spec _ _ _ _ _ _ _ _ Ha) as [_ Hres].
    destruct (Hres _ eq_refl) as [new [Hnew [_ Hmap]]]. simpl in Hnew. now subst. }
  split; [exact Hloop|]. split.
  2:{ intros o rp p cs Hin.
      destruct (program_submission _ _ _ _ _ Hin) as [_ [d [diff [t [n' Ha]]]]].
      exists d, diff. exact (Hloop _ _ _ _ _ _ Ha). }
  intros d diff n t r n' o rp p cs Hrun Hin.
  rewrite review_run in Hrun.
  destruct (analyzeCode w (filteredDiff w (parseDiff w diff)) d n)
    as [[ta [cs'|e]] na] eqn:Ha.
  - assert (Hta : ~ In (CreateReview o rp p cs) (actions ta)).
    { unfold actions. intros Hx. apply in_map_iff in Hx. destruct Hx as [ev [Hact Hev]].
      destruct (analyzeLoop_actions _ _ _ _ _ _ _ _ Ha _ Hev) as [Hs _].
      rewrite Hact in Hs. discriminate. }
    destruct cs' as [|c cs']; inversion Hrun; subst t; clear Hrun.
    + simpl in Hin. destruct Hin as [Hin|Hin]; [discriminate|contradiction].
    + unfold actions in Hin. simpl in Hin.
      destruct Hin as [Hin|Hin]; [discriminate|].
      rewrite map_app in Hin. apply in_app_or in Hin. destruct Hin as [Hin|Hin]; [contradiction|].
      destruct Hin as [Hin|[]]. inversion Hin; subst. eauto.
  - inversion Hrun; subst t. simpl in Hin.
    destruct Hin as [Hin|Hin]; [discriminate|].
    exfalso. unfold actions in Hin. apply in_map_iff in Hin.
    destruct Hin as [ev [Hact Hev]].
    destruct (analyzeLoop_actions _ _ _ _ _ _ _ _ Ha _ Hev) as [Hs _].
    rewrite Hact in Hs. discriminate.
Qed.

Lemma analyzeLoop_app (w : Env) (d : PRDetails) (pre post : list File.t) :
  forall (comments : list Comment) (n : nat),
    analyzeLoop w d (pre ++ post) comments n =
    match analyzeLoop w d pre comments n with
    | (t, Normal comments', n') =>
        let '(t', r, n'') := analyzeLoop w d post comments' n' in ((t ++ t')%list, r, n'')
    | (t, Throw e, n') => (t, Throw e, n')
    end.
Proof.
  induction pre as [|file pre IH]; intros comments n.
  - simpl. unfold ret. destruct (analyzeLoop w d post comments n) as [[t r] n']. reflexivity.
  - rewrite <- app_comm_cons, !analyzeLoop_cons.
    destruct (analyzeFile w d file comments n) as [[t1 [comments1|e]] n1]; [|reflexivity].
    rewrite IH.
    destruct (analyzeLoop w d pre comments1 n1) as [[t2 [comments2|e]] n2]; [|reflexivity].
    destruct (analyzeLoop w d post comments2 n2) as [[t3 r3] n3].
    now rewrite app_assoc.
Qed.

Lemma NoFindings_reviewsOf (w : Env) (n : nat) (prompt : string)
      (logged : option Error) :
  NoFindings w n prompt logged ->
  match logged with
  | Some e => reviewsOf w n prompt = Throw e
  | None => exists v, reviewsOf w n prompt = Normal v /\ truthy v = false
  end.
Proof.
  unfold reviewsOf.
  intros [e H|response H Hc|response res e H Ht Hp|response res H Ht Hp
          |response res parsed reviews H Ht Hp Hg Hf]; rewrite H.
  - reflexivity.
  - unfold responseText. rewrite Hc. reflexivity.
  - rewrite Ht, Hp. reflexivity.
  - rewrite Ht, Hp. reflexivity.
  - rewrite Ht, Hp, Hg. eauto.
Qed.

(** C1, as the code has it.  When the inference call made for a file is
    rejected, or its answer has no choice, or the content is no JSON or the
    JSON [null], the iteration of that file compiles the prompt, makes the
    one request and logs that fault with [console.error], and nothing else;
    when the parsed value has no truthy [reviews] member, it compiles the
    prompt and makes the one request, and logs nothing.  In each case the
    iteration ends normally with the comments gathered so far unchanged, and
    the run goes on with the next file: the comments of the files before
    are a prefix of whatever the analysis returns. *)
Theorem C1_failed_inference_is_isolated (w : Env) (d : PRDetails)
        (pre : list File.t) (file : File.t) (post : list File.t)
        (tp : list Event) (cs : list Comment) (n : nat) (logged : option Error) :
  analyzeCode w pre d O = (tp, Normal cs, n) ->
  is_deleted file = false ->
  NoFindings w n (createPrompt file (File.chunks file) d) logged ->
  let t0 := trace_no_findings file (createPrompt file (File.chunks file) d) logged in
  analyzeFile w d file cs n = (t0, Normal cs, S n)
  /\ analyzeCode w (pre ++ file :: post) d O =
     (let '(t, r, n') := analyzeLoop w d post cs (S n) in ((tp ++ t0 ++ t)%list, r, n'))
  /\ (forall t r n',
        analyzeLoop w d post cs (S n) = (t, r, n') ->
        forall result, r = Normal result -> exists more, result = (cs ++ more)%list).
Proof.
  intros Hpre Hdel Hno t0.
  assert (Hfile : analyzeFile w d file cs n = (t0, Normal cs, S n)).
  { rewrite analyzeFile_run, Hdel. cbv zeta.
    pose proof (NoFindings_reviewsOf _ _ _ _ Hno) as Hrev.
    destruct logged as [e|].
    - rewrite Hrev. reflexivity.
    - destruct Hrev as [v [-> Hf]]. rewrite Hf. reflexivity. }
  split; [exact Hfile|]. split.
  - unfold analyzeCode in *. rewrite analyzeLoop_app, Hpre, analyzeLoop_cons, Hfile.
    destruct (analyzeLoop w d post cs (S n)) as [[t r] n']. reflexivity.
  - intros t r n' Hpost result Hr.
    destruct (analyzeLoop_spec _ _ _ _ _ _ _ _ Hpost) as [_ Hres].
    destruct (Hres _ Hr) as [more [Hmore _]]. eauto.
Qed.



(** ** Lines of the prompt *)

Lemma append_assoc (a b c : string) : (a ++ b) ++ c = a ++ (b ++ c).
Proof. induction a as [|x a IH]; simpl; [reflexivity|now rewrite IH]. Qed.





(** C7, as the code has it.  A file whose destination path is undefined or
    empty is matched against every configured pattern as the empty string:
    it passes the filter exactly when [minimatch] finds the empty string to
    match none of them.  With an empty configuration string the one pattern
    is the empty string, and the file passes exactly when [minimatch] does
    not match the empty string against the empty pattern. *)
Theorem C7_unnamed_file_is_matched_as_empty (w : Env) (f : File.t)
        (parsedDiff : list File.t) :
  File.to f = None \/ File.to f = Some EmptyString ->
  (In f (filteredDiff w parsedDiff) <->
   In f parsedDiff
   /\ forall pattern, In pattern (excludePatterns w) ->
                      minimatch w EmptyString pattern = false)
  /\ (getInput w "exclude" = EmptyString ->
      excludePatterns w = [EmptyString]
      /\ (In f (filteredDiff w parsedDiff) <->
          In f parsedDiff /\ minimatch w EmptyString EmptyString = false)).
Proof.
  intros Hto.
  assert (Hpath : nullish (File.to f) EmptyString = EmptyString)
    by (destruct Hto as [-> | ->]; reflexivity).
  assert (Hiff : In f (filteredDiff w parsedDiff) <->
                 In f parsedDiff
                 /\ forall pattern, In pattern (excludePatterns w) ->
                                    minimatch w EmptyString pattern = false).
  { rewrite filteredDiff_In, Hpath. split; intros [Hin H]; (split; [exact Hin|]).
    - intros pattern Hp.
      destruct (minimatch w EmptyString pattern) eqn:Hm; [|reflexivity].
      assert (Hex : existsb (fun pattern => minimatch w EmptyString pattern)
                            (excludePatterns w) = true)
        by (apply existsb_exists; eauto).
      congruence.
    - destruct (existsb (fun pattern => minimatch w EmptyString pattern)
                        (excludePatterns w)) eqn:Hex; [|reflexivity].
      apply existsb_exists in Hex. destruct Hex as [pattern [Hp Hm]].
      rewrite (H _ Hp) in Hm. discriminate. }
  split; [exact Hiff|].
  intros Hconf.
  assert (Hpat : excludePatterns w = [EmptyString])
    by (unfold excludePatterns; rewrite Hconf; reflexivity).
  split; [exact Hpat|].
  rewrite Hiff, Hpat. split; intros [Hin H]; (split; [exact Hin|]).
  - apply H. now left.
  - intros pattern [<-|[]]. exact H.
Qed.

(** C9, as the code has it.  In a run whose metadata request has succeeded
    (it is made first), an event action that is neither [opened] nor
    [synchronize], and likewise a diff request answered with null or with
    an empty text, make the program log one message and return with exit
    code 0; beyond the events of the metadata request, the trace holds the
    read of the event file, the diff request in the second case, and the
    message: no event of it is a parse, a prompt, an inference call or a
    submission. *)
Theorem C9_early_return (w : Env) (t0 : list Event) (d : PRDetails) (n0 : nat)
        (a : JSValue) :
  getPRDetails w O = (t0, Normal d, n0) ->
  eventAction w = Normal a ->
  let read := event (ReadFile (nullish (GITHUB_EVENT_PATH w) EmptyString)) in
  let fetch := event (PullsGetDiff (owner d) (repo d) (pull_number d)) in
  (supported a = false ->
   program w =
   ((t0 ++ [read; event (ConsoleLog [JString "Unsupported event:"; env_name w])])%list, 0%N)
   /\ Forall outside_review (fst (program w)))
  /\ (forall diff,
        supported a = true ->
        pulls_get_diff w (owner d) (repo d) (pull_number d) = Normal diff ->
        no_content diff = true ->
        program w =
        ((t0 ++ [read; fetch; event (ConsoleLog [JString "No diff found"])])%list, 0%N)
        /\ Forall outside_review (fst (program w))).
Proof.
  intros Hd Ha read fetch.
  destruct (getPRDetails_outside_review _ _ _ _ _ Hd) as [_ Ht0].
  split.
  - intros Hs.
    assert (Hrun : program w =
              ((t0 ++ [read; event (ConsoleLog [JString "Unsupported event:"; env_name w])])%list,
               0%N)).
    { unfold program. rewrite main_run, Hd. cbv zeta. rewrite Ha, Hs. reflexivity. }
    split; [exact Hrun|]. rewrite Hrun. simpl.
    apply Forall_app. split; [exact Ht0|]. repeat constructor.
  - intros diff Hs Hdiff Hno.
    assert (Hrun : program w =
              ((t0 ++ [read; fetch; event (ConsoleLog [JString "No diff found"])])%list, 0%N)).
    { unfold program. rewrite main_run, Hd. cbv zeta.
      rewrite Ha, Hs, Hdiff, Hno. reflexivity. }
    split; [exact Hrun|]. rewrite Hrun. simpl.
    apply Forall_app. split; [exact Ht0|]. repeat constructor.
Qed.

Lemma toComment_finding (w : Env) (file : File.t) (v : JSValue) (f : string * JSValue) :
  is_finding v (fst f) (snd f) -> toComment w file v = Normal (commentOf file f).
Proof.
  intros [props [-> [Hline Hcomment]]].
  unfold toComment, commentOf. simpl. rewrite Hline, Hcomment. reflexivity.
Qed.



(** * The properties on concrete runs *)

(** C1 fails as stated.  Two files are reviewed; the service answers the
    first call with one finding, and the second with the well-formed JSON
    text whose [reviews] member is the number 5, which violates the schema.
    The first file alone yields its comment; with the second file the
    TypeError of [aiResponse.map] escapes [analyzeCode], the process exits
    with code 1, and nothing is submitted: the comment of the first file is
    lost. *)
Lemma C1_schema_violation_aborts_the_run :
  let w := Scenario.opened EmptyString [Scenario.file_a; Scenario.file_b]
                           Scenario.answers_then_5 in
  analyzeCode w [Scenario.file_a] Scenario.details O =
    (Scenario.trace_file Scenario.file_a, Normal [Scenario.comment_a], 1%nat)
  /\ reviewsOf w 1 (createPrompt Scenario.file_b (File.chunks Scenario.file_b)
                                 Scenario.details)
     = Normal (JNumber (Finite false 5))
  /\ analyzeCode w [Scenario.file_a; Scenario.file_b] Scenario.details O =
       ((Scenario.trace_file Scenario.file_a ++ Scenario.trace_file Scenario.file_b)%list,
        Throw TypeError, 2%nat)
  /\ snd (program w) = 1%N
  /\ submissions (fst (program w)) = [].
Proof. vm_compute. repeat split; reflexivity. Qed.

Lemma C1_witness :
  let w := Scenario.opened EmptyString [Scenario.file_a; Scenario.file_b]
                           Scenario.answers_then_prose in
  let prompt := createPrompt Scenario.file_b (File.chunks Scenario.file_b)
                             Scenario.details in
  let t0 := [ scoped Scenario.file_b (CreatePrompt prompt);
              scoped Scenario.file_b (ChatCompletionsCreate prompt);
              scoped Scenario.file_b (ConsoleError SyntaxError) ] in
  analyzeCode w [Scenario.file_a] Scenario.details O =
    (Scenario.trace_file Scenario.file_a, Normal [Scenario.comment_a], 1%nat)
  /\ is_deleted Scenario.file_b = false
  /\ NoFindings w 1 prompt (Some SyntaxError)
  /\ analyzeFile w Scenario.details Scenario.file_b [Scenario.comment_a] 1 =
       (t0, Normal [Scenario.comment_a], 2%nat)
  /\ analyzeCode w ([Scenario.file_a] ++ Scenario.file_b :: []) Scenario.details O =
       (let '(t, r, n') := analyzeLoop w Scenario.details [] [Scenario.comment_a] 2 in
        ((Scenario.trace_file Scenario.file_a ++ t0 ++ t)%list, r, n'))
  /\ (forall t r n',
        analyzeLoop w Scenario.details [] [Scenario.comment_a] 2 = (t, r, n') ->
        forall result, r = Normal result ->
          exists more, result = ([Scenario.comment_a] ++ more)%list).
Proof.
  intros w prompt t0.
  assert (Hpre : analyzeCode w [Scenario.file_a] Scenario.details O =
                 (Scenario.trace_file Scenario.file_a, Normal [Scenario.comment_a], 1%nat))
    by (vm_compute; reflexivity).
  assert (Hno : NoFindings w 1 prompt (Some SyntaxError)).
  { eapply not_parseable with
      (response := {| OpenAI.choices :=
                        [ {| OpenAI.message :=
                               Some {| OpenAI.content := Some Scenario.no_json_text |} |} ] |})
      (res := Scenario.no_json_text) (e := SyntaxError); vm_compute; reflexivity. }
  split; [exact Hpre|]. split; [reflexivity|]. split; [exact Hno|].
  exact (C1_failed_inference_is_isolated w Scenario.details [Scenario.file_a]
           Scenario.file_b [] _ _ _ (Some SyntaxError) Hpre eq_refl Hno).
Defined.



Lemma C3_witness :
  let w := Scenario.opened "*.yaml" [Scenario.file_a; Scenario.file_yaml]
                           Scenario.answers_two in
  existsb (fun pattern =>
             minimatch w (nullish (File.to Scenario.file_yaml) EmptyString) pattern)
          (excludePatterns w) = true
  /\ (forall parsedDiff, ~ In Scenario.file_yaml (filteredDiff w parsedDiff))
  /\ (forall ev, In ev (fst (program w)) -> scope ev <> Some Scenario.file_yaml).
Proof.
  intros w. split; [reflexivity|].
  exact (C3_excluded_file_not_analyzed w Scenario.file_yaml eq_refl).
Defined.

Lemma C4_witness :
  let w := Scenario.opened EmptyString [Scenario.file_deleted] Scenario.answers_two in
  File.to Scenario.file_deleted = Some "/dev/null"
  /\ (forall d comments n,
        analyzeFile w d Scenario.file_deleted comments n = ([], Normal comments, n))
  /\ (forall ev, In ev (fst (program w)) -> scope ev <> Some Scenario.file_deleted)
  /\ (forall o r p cs c,
        In (CreateReview o r p cs) (actions (fst (program w))) ->
        In c cs -> path c <> Some "/dev/null").
Proof.
  intros w. split; [reflexivity|].
  exact (C4_deleted_file_dropped w Scenario.file_deleted eq_refl).
Defined.

Lemma C5_witness :
  let w := Scenario.opened "*.yaml" [Scenario.file_yaml; Scenario.file_deleted]
                           Scenario.answers_two in
  survivors w (parseDiff w Scenario.diff_text) = []
  /\ (length (submissions (fst (program w))) <= 1)%nat
  /\ analyzeCode w (filteredDiff w (parseDiff w Scenario.diff_text)) Scenario.details O
     = ([], Normal [], O)
  /\ review w Scenario.details Scenario.diff_text O
     = ([event (ParseDiff Scenario.diff_text)], Normal tt, O).
Proof.
  intros w.
  assert (Hnone : survivors w (parseDiff w Scenario.diff_text) = []) by reflexivity.
  destruct (C5_at_most_one_submission w) as [Hone [_ Hzero]].
  destruct (Hzero Scenario.details Scenario.diff_text O Hnone) as [Ha Hr].
  repeat split; assumption.
Defined.



(** C7 fails as stated.  The exclusion option is empty, so the one pattern
    is the empty string; a file without destination path is matched as the
    empty string, which [minimatch] finds to match the empty pattern: the
    file is removed by the pattern filter, and the run makes no inference
    call. *)
Lemma C7_unnamed_file_is_excluded_by_empty_option :
  let w := Scenario.opened EmptyString [Scenario.file_unnamed] Scenario.answers_two in
  File.to Scenario.file_unnamed = None
  /\ getInput w "exclude" = EmptyString
  /\ excludePatterns w = [EmptyString]
  /\ minimatch w (nullish (File.to Scenario.file_unnamed) EmptyString) EmptyString = true
  /\ filteredDiff w [Scenario.file_unnamed] = []
  /\ filter is_inference (actions (fst (program w))) = []
  /\ snd (program w) = 0%N.
Proof. vm_compute. repeat split; reflexivity. Qed.

Lemma C7_witness :
  let w := Scenario.opened "*.yaml" [Scenario.file_unnamed] Scenario.answers_two in
  (File.to Scenario.file_unnamed = None \/ File.to Scenario.file_unnamed = Some EmptyString)
  /\ (In Scenario.file_unnamed (filteredDiff w [Scenario.file_unnamed]) <->
      In Scenario.file_unnamed [Scenario.file_unnamed]
      /\ forall pattern, In pattern (excludePatterns w) ->
                         minimatch w EmptyString pattern = false).
Proof.
  intros w.
  assert (H : File.to Scenario.file_unnamed = None
              \/ File.to Scenario.file_unnamed = Some EmptyString) by (left; reflexivity).
  split; [exact H|].
  exact (proj1 (C7_unnamed_file_is_matched_as_empty w Scenario.file_unnamed
                  [Scenario.file_unnamed] H)).
Defined.

Lemma C8_witness :
  let w := Scenario.opened "*.yaml" [Scenario.file_a; Scenario.file_yaml; Scenario.file_b]
                           Scenario.answers_two in
  review w Scenario.details Scenario.diff_text O =
    ((event (ParseDiff Scenario.diff_text)
        :: Scenario.trace_file Scenario.file_a ++ Scenario.trace_file Scenario.file_b
        ++ [event (CreateReview (JString "octo") (JString "demo") (JNumber (Finite false 7))
                                [Scenario.comment_a; Scenario.comment_b])])%list,
     Normal tt, 2%nat)
  /\ map Normal [Scenario.comment_a; Scenario.comment_b] =
     commentsInOrder w Scenario.details O (filteredDiff w (parseDiff w Scenario.diff_text)).
Proof.
  intros w.
  assert (Hrun : review w Scenario.details Scenario.diff_text O =
    ((event (ParseDiff Scenario.diff_text)
        :: Scenario.trace_file Scenario.file_a ++ Scenario.trace_file Scenario.file_b
        ++ [event (CreateReview (JString "octo") (JString "demo") (JNumber (Finite false 7))
                                [Scenario.comment_a; Scenario.comment_b])])%list,
     Normal tt, 2%nat)) by (vm_compute; reflexivity).
  split; [exact Hrun|].
  refine (proj1 (proj2 (C8_processing_order_kept w)) _ _ _ _ _ _ _ _ _ _ Hrun _).
  unfold actions. rewrite map_cons, !map_app. right.
  apply in_or_app. right. apply in_or_app. right. left. reflexivity.
Defined.

(** C9 fails as stated.  In the first run the event action is [closed],
    and the metadata request, which [main] makes before it looks at the
    action, is rejected: nothing is logged about the event, and the process
    exits with code 1.  In the second run the action is [opened] and the
    diff request is rejected, so that no diff content is retrieved: the
    process exits with code 1 as well. *)
Lemma C9_fault_before_the_event_test :
  let w := Scenario.world "closed" (Throw (Fault "Not Found")) (Normal None)
                          EmptyString [] Scenario.answers_two in
  let w' := Scenario.world "opened" Scenario.metadata (Throw (Fault "Bad Gateway"))
                           EmptyString [] Scenario.answers_two in
  eventAction w = Normal (JString "closed")
  /\ supported (JString "closed") = false
  /\ program w =
     ([ event (ReadFile Scenario.event_path);
        event (PullsGet (JString "octo") (JString "demo") (JNumber (Finite false 7)));
        event (ConsoleError (Fault "Not Found")) ], 1%N)
  /\ program w' =
     ((Scenario.trace_details
         ++ [ event (ReadFile Scenario.event_path);
              event (PullsGetDiff (JString "octo") (JString "demo")
                                  (JNumber (Finite false 7)));
              event (ConsoleError (Fault "Bad Gateway")) ])%list, 1%N).
Proof. vm_compute. repeat split; reflexivity. Qed.

Lemma C9_witness :
  let w := Scenario.world "closed" Scenario.metadata (Normal None)
                          EmptyString [] Scenario.answers_two in
  getPRDetails w O = (Scenario.trace_details, Normal Scenario.details, O)
  /\ eventAction w = Normal (JString "closed")
  /\ supported (JString "closed") = false
  /\ program w =
     ((Scenario.trace_details
         ++ [ event (ReadFile Scenario.event_path);
              event (ConsoleLog [JString "Unsupported event:"; JString "pull_request"]) ])%list,
      0%N).
Proof.
  intros w.
  assert (Hd : getPRDetails w O = (Scenario.trace_details, Normal Scenario.details, O))
    by (vm_compute; reflexivity).
  assert (Ha : eventAction w = Normal (JString "closed")) by (vm_compute; reflexivity).
  split; [exact Hd|]. split; [exact Ha|]. split; [reflexivity|].
  exact (proj1 (proj1 (C9_early_return w _ _ _ _ Hd Ha) eq_refl)).
Defined.


(** * Checks of the model on concrete values *)

Example trim_example : trim (bytes [32; 9; 123; 125; 10; 194; 160]%N) = "{}".
Proof. reflexivity. Qed.

Example split_empty_option : map trim (split_comma EmptyString) = [EmptyString].
Proof. reflexivity. Qed.

Example split_patterns :
  map trim (split_comma "*.yaml, **/*.json ,") = ["*.yaml"; "**/*.json"; EmptyString].
Proof. reflexivity. Qed.

Example number_of_line_strings :
  StringToNumber "12" = Finite false 12
  /\ StringToNumber " 0x1F " = Finite false 31
  /\ StringToNumber "12px" = NaN
  /\ StringToNumber "L12" = NaN
  /\ StringToNumber "." = NaN
  /\ StringToNumber "5." = Finite false 5
  /\ StringToNumber ".5e1" = Finite false 5
  /\ StringToNumber "+-5" = NaN
  /\ StringToNumber "1e" = NaN
  /\ StringToNumber "-0" = Finite true 0
  /\ StringToNumber "-Infinity" = Infinity true
  /\ StringToNumber "infinity" = NaN.
Proof. vm_compute. repeat split; reflexivity. Qed.

Example number_rounding :
  StringToNumber "0.1" = Finite false (3602879701896397 # 36028797018963968)
  /\ StringToNumber "9007199254740993" = Finite false 9007199254740992
  /\ StringToNumber "5e-324" = Finite false (Qpower 2 (-1074))
  /\ StringToNumber "2e-324" = Finite false 0
  /\ StringToNumber "-1e-400" = Finite true 0
  /\ StringToNumber "1.7976931348623157e308"
     = Finite false (Qred (inject_Z (2 ^ 53 - 1) * Qpower 2 971))
  /\ StringToNumber "1.7976931348623159e308" = Infinity false
  /\ StringToNumber "1e309" = Infinity false.
Proof. vm_compute. repeat split; reflexivity. Qed.

Example render_changes :
  map renderChange [NormalChange 4 5 " a"; AddChange 6 "+b"; DeleteChange 5 "-c"]
  = ["5  a"; "6 +b"; "5 -c"].
Proof. reflexivity. Qed.

(** Scenario A of the specification: [a.ts] and [config.yaml], the pattern
    [*.yaml], one finding for [a.ts]: one comment, on [a.ts], is submitted,
    and one inference call is made. *)
Example scenario_A :
  let w := Scenario.opened "*.yaml" [Scenario.file_a; Scenario.file_yaml]
                           Scenario.answers_two in
  map action (submissions (fst (program w)))
  = [CreateReview (JString "octo") (JString "demo") (JNumber (Finite false 7))
                  [Scenario.comment_a]]
  /\ length (filter is_inference (actions (fst (program w)))) = 1%nat
  /\ snd (program w) = 0%N.
Proof. vm_compute. repeat split; reflexivity. Qed.

(** Scenario B: the diff touches a deleted file only. *)
Example scenario_B :
  let w := Scenario.opened EmptyString [Scenario.file_deleted] Scenario.answers_two in
  program w =
  ((Scenario.trace_details
      ++ [ event (ReadFile Scenario.event_path);
           event (PullsGetDiff (JString "octo") (JString "demo") (JNumber (Finite false 7)));
           event (ParseDiff Scenario.diff_text) ])%list, 0%N).
Proof. vm_compute. reflexivity. Qed.

(** Scenario C: the answer for the second file is no JSON; the comment of
    the first file is submitted all the same. *)
Example scenario_C :
  let w := Scenario.opened EmptyString [Scenario.file_a; Scenario.file_b]
                           Scenario.answers_then_prose in
  map action (submissions (fst (program w)))
  = [CreateReview (JString "octo") (JString "demo") (JNumber (Finite false 7))
                  [Scenario.comment_a]]
  /\ In (scoped Scenario.file_b (ConsoleError SyntaxError)) (fst (program w))
  /\ snd (program w) = 0%N.
Proof. vm_compute. repeat split; try reflexivity. do 9 right. left. reflexivity. Qed.

(** * Around the loop: the inference client, the metadata, the host requests *)

Lemma getPRDetails_run (w : Env) (n : nat) :
  getPRDetails w n =
  let path := or_else (GITHUB_EVENT_PATH w) EmptyString in
  let read := event (ReadFile path) in
  match readFileSync w path with
  | Throw e => ([read], Throw e, n)
  | Normal text =>
  match JSON_parse w text with
  | Throw e => ([read], Throw e, n)
  | Normal payload =>
  match Get payload "repository" with
  | Throw e => ([read], Throw e, n)
  | Normal repository =>
  match Get payload "number" with
  | Throw e => ([read], Throw e, n)
  | Normal number =>
  match Get repository "owner" with
  | Throw e => ([read], Throw e, n)
  | Normal repository_owner =>
  match Get repository_owner "login" with
  | Throw e => ([read], Throw e, n)
  | Normal login =>
  match Get repository "name" with
  | Throw e => ([read], Throw e, n)
  | Normal name =>
  match pulls_get w login name number with
  | Throw e => ([read; event (PullsGet login name number)], Throw e, n)
  | Normal prResponse =>
      ([read; event (PullsGet login name number)],
       Normal {| owner := login; repo := name; pull_number := number;
                 title := nullish (data_title prResponse) EmptyString;
                 description := nullish (data_body prResponse) EmptyString |}, n)
  end end end end end end end end.
Proof.
  unfold getPRDetails, call, bind, emit, lift, ret, event. cbv zeta.
  repeat match goal with
         | |- context [match ?c with Normal _ => _ | Throw _ => _ end] =>
             destruct c; simpl
         end; reflexivity.
Qed.

(** X1. [getAIResponse] never throws.  It makes exactly one request and
    moves the count of calls by one; what it returns is the [reviews] member
    of the parsed answer when the request, the reading of the first choice,
    [JSON.parse] and the reading of [reviews] all go through, and no error is
    logged then; otherwise it logs the one fault and returns [null]. *)
Theorem X1_getAIResponse_never_throws (w : Env) (prompt : string) (n : nat) :
  exists t v,
    getAIResponse w prompt n = (t, Normal v, S n)
    /\ filter is_inference (actions t) = [ChatCompletionsCreate prompt]
    /\ match reviewsOf w n prompt with
       | Normal reviews => v = reviews /\ filter is_logged_error (actions t) = []
       | Throw e => v = JNull /\ filter is_logged_error (actions t) = [ConsoleError e]
       end.
Proof.
  rewrite getAIResponse_run.
  destruct (reviewsOf w n prompt) as [reviews|e]; do 2 eexists; repeat split.
Qed.

(** X2. An answer whose first choice has no message, no content, or a
    content that is blank after trimming is read as the text [{}]: where
    that text parses to the empty object, [getAIResponse] returns undefined
    and logs nothing, and the iteration of the file adds no comment. *)
Theorem X2_blank_content_is_no_finding (w : Env) (d : PRDetails) (file : File.t)
        (comments : list Comment) (n : nat)
        (response : OpenAI.ChatCompletion) (choice : OpenAI.Choice)
        (others : list OpenAI.Choice) :
  chat_completions_create w n (promptOf d file) = Normal response ->
  OpenAI.choices response = choice :: others ->
  blank_content choice ->
  JSON_parse w "{}" = Normal (JObject []) ->
  getAIResponse w (promptOf d file) n =
    ([event (ChatCompletionsCreate (promptOf d file))], Normal JUndefined, S n)
  /\ (is_deleted file = false ->
      analyzeFile w d file comments n =
        ([scoped file (CreatePrompt (promptOf d file));
          scoped file (ChatCompletionsCreate (promptOf d file))],
         Normal comments, S n)).
Proof.
  intros Hcall Hchoices Hblank Hparse.
  assert (Htext : responseText response = Normal "{}").
  { unfold responseText. rewrite Hchoices. unfold blank_content in Hblank.
    destruct (OpenAI.message choice) as [m|]; [|reflexivity].
    destruct (OpenAI.content m) as [s|]; [|reflexivity].
    simpl. now rewrite Hblank. }
  assert (Hrev : reviewsOf w n (promptOf d file) = Normal JUndefined).
  { unfold reviewsOf. now rewrite Hcall, Htext, Hparse. }
  split.
  - now rewrite getAIResponse_run, Hrev.
  - intros Hdel. rewrite analyzeFile_run, Hdel. cbv zeta.
    fold (promptOf d file). now rewrite Hrev.
Qed.

(** X3. [getPRDetails] asks the host only after the payload has given
    [repository.owner.login] and [repository.name]: when the payload is an
    object without [repository], or its [repository] is an object without
    [owner], a TypeError is thrown after the read of the event file, no
    request is made, and the process logs the error and exits with code 1. *)
Theorem X3_payload_without_repository (w : Env) (n : nat) (text : string)
        (props : list (string * JSValue)) :
  readFileSync w (or_else (GITHUB_EVENT_PATH w) EmptyString) = Normal text ->
  JSON_parse w text = Normal (JObject props) ->
  lookup "repository" props = JUndefined
  \/ (exists rprops, lookup "repository" props = JObject rprops
                     /\ lookup "owner" rprops = JUndefined) ->
  let read := event (ReadFile (or_else (GITHUB_EVENT_PATH w) EmptyString)) in
  getPRDetails w n = ([read], Throw TypeError, n)
  /\ program w = ([read; event (ConsoleError TypeError)], 1%N).
Proof.
  intros Hread Hparse Hmissing read.
  assert (Hd : forall k, getPRDetails w k = ([read], Throw TypeError, k)).
  { intros k. rewrite getPRDetails_run. cbv zeta. rewrite Hread, Hparse. simpl.
    destruct Hmissing as [->|[rprops [-> Howner]]]; simpl; [reflexivity|].
    now rewrite Howner. }
  split; [apply Hd|].
  unfold program. rewrite main_run, Hd. reflexivity.
Qed.

(** X4. When [getPRDetails] has returned, the event file has been read and
    parsed to a value that is neither null nor undefined, so that the second
    read of [main] and its reading of [action] go through as well: the
    action of the payload is defined (possibly undefined as a value), the
    details carry what the payload has under [repository.owner.login],
    [repository.name] and [number], and exactly one request was made, for
    these three. *)
Theorem X4_details_come_from_the_payload (w : Env) (n : nat) (t : list Event)
        (d : PRDetails) (n' : nat) :
  getPRDetails w n = (t, Normal d, n') ->
  n' = n
  /\ (exists a, eventAction w = Normal a)
  /\ t = [ event (ReadFile (or_else (GITHUB_EVENT_PATH w) EmptyString));
           event (PullsGet (owner d) (repo d) (pull_number d)) ]
  /\ exists text payload repository repository_owner,
       readFileSync w (or_else (GITHUB_EVENT_PATH w) EmptyString) = Normal text
       /\ JSON_parse w text = Normal payload
       /\ Get payload "repository" = Normal repository
       /\ Get repository "owner" = Normal repository_owner
       /\ Get repository_owner "login" = Normal (owner d)
       /\ Get repository "name" = Normal (repo d)
       /\ Get payload "number" = Normal (pull_number d).
Proof.
  rewrite getPRDetails_run. cbv zeta.
  assert (Hpath : nullish (GITHUB_EVENT_PATH w) EmptyString
                  = or_else (GITHUB_EVENT_PATH w) EmptyString).
  { unfold nullish, or_else. destruct (GITHUB_EVENT_PATH w) as [s|]; [|reflexivity].
    destruct (String.eqb_spec s EmptyString); congruence. }
  unfold eventAction. rewrite Hpath.
  destruct (readFileSync w (or_else (GITHUB_EVENT_PATH w) EmptyString)) as [text|e]
    eqn:Hread; [|discriminate].
  destruct (JSON_parse w text) as [payload|e] eqn:Hparse; [|discriminate].
  destruct (Get payload "repository") as [repository|e] eqn:Hrep; [|discriminate].
  destruct (Get payload "number") as [number|e] eqn:Hnum; [|discriminate].
  destruct (Get repository "owner") as [repository_owner|e] eqn:Hown; [|discriminate].
  destruct (Get repository_owner "login") as [login|e] eqn:Hlog; [|discriminate].
  destruct (Get repository "name") as [name|e] eqn:Hname; [|discriminate].
  destruct (pulls_get w login name number) as [prResponse|e]; [|discriminate].
  intros H. inversion H; subst; clear H. simpl.
  split; [reflexivity|]. split.
  - destruct payload; simpl in *; try discriminate; eauto.
  - split; [reflexivity|].
    exists text, payload, repository, repository_owner. repeat split; assumption.
Qed.

Lemma filter_actions_app (f : Action -> bool) (t1 t2 : list Event) :
  filter f (actions (t1 ++ t2)) = (filter f (actions t1) ++ filter f (actions t2))%list.
Proof. unfold actions. now rewrite map_app, filter_app. Qed.

(** The requests and the prompts of the loop, whether it completes or not. *)
Lemma analyzeLoop_calls (w : Env) (d : PRDetails) (files : list File.t) :
  forall (comments : list Comment) (n : nat) t r n',
    analyzeLoop w d files comments n = (t, r, n') ->
    let kept := filter (fun file => negb (is_deleted file)) files in
    exists k,
      (k <= length kept)%nat
      /\ n' = (n + k)%nat
      /\ filter is_inference (actions t)
         = map (fun file => ChatCompletionsCreate (promptOf d file)) (firstn k kept)
      /\ filter is_prompt (actions t)
         = map (fun file => CreatePrompt (promptOf d file)) (firstn k kept)
      /\ (forall result, r = Normal result -> k = length kept).
Proof.
  induction files as [|file rest IH]; intros comments n t r n' H; cbv zeta.
  - inversion H; subst. exists O. simpl. repeat split; auto with arith.
  - rewrite analyzeLoop_cons, analyzeFile_run in H. simpl filter.
    destruct (is_deleted file) eqn:Hdel; simpl negb; cbv iota.
    + destruct (analyzeLoop w d rest comments n) as [[t2 r2] n2] eqn:Hrest.
      inversion H; subst. simpl. exact (IH _ _ _ _ _ Hrest).
    + cbv zeta in H. fold (promptOf d file) in H.
      assert (Hstep : forall t1 r1,
                filter is_inference (actions t1) = [ChatCompletionsCreate (promptOf d file)] ->
                filter is_prompt (actions t1) = [CreatePrompt (promptOf d file)] ->
                match r1 with
                | Normal c1 =>
                    let '(t', r', n'') := analyzeLoop w d rest c1 (S n) in
                    ((t1 ++ t')%list, r', n'')
                | Throw e => (t1, Throw e, S n)
                end = (t, r, n') ->
                exists k,
                  (k <= length (file :: filter (fun f => negb (is_deleted f)) rest))%nat
                  /\ n' = (n + k)%nat
                  /\ filter is_inference (actions t)
                     = map (fun f => ChatCompletionsCreate (promptOf d f))
                           (firstn k (file :: filter (fun f => negb (is_deleted f)) rest))
                  /\ filter is_prompt (actions t)
                     = map (fun f => CreatePrompt (promptOf d f))
                           (firstn k (file :: filter (fun f => negb (is_deleted f)) rest))
                  /\ (forall result, r = Normal result ->
                        k = length (file :: filter (fun f => negb (is_deleted f)) rest))).
      { intros t1 r1 Hinf Hpr Hrun. destruct r1 as [c1|e].
        - destruct (analyzeLoop w d rest c1 (S n)) as [[t2 r2] n2] eqn:Hrest.
          inversion Hrun; subst.
          destruct (IH _ _ _ _ _ Hrest) as [k [Hk [Hn [Hi [Hp Hall]]]]].
          exists (S k). simpl. rewrite !filter_actions_app, Hinf, Hpr, Hi, Hp.
          repeat split; try lia; try reflexivity.
          intros result Hr. now rewrite (Hall _ Hr).
        - inversion Hrun; subst. exists 1%nat. simpl. rewrite Hinf, Hpr.
          repeat split; try lia; try reflexivity. intros result Hr. discriminate. }
      destruct (reviewsOf w n (promptOf d file)) as [v|e].
      * eapply Hstep; [| |exact H]; reflexivity.
      * eapply (Hstep _ (Normal comments)); [| |exact H]; reflexivity.
Qed.

(** X5. [analyzeCode] asks the service once for each file that is no
    deletion, in the order of the files, with the prompt compiled from that
    file, and compiles no other prompt: when it returns, the requests of its
    trace are exactly these prompts and the count of calls has moved by the
    number of such files; when a fault ends it early, the requests are those
    of the first files up to the one at which it stopped.  No request is made
    twice. *)
Theorem X5_one_request_per_file (w : Env) (d : PRDetails) (files : list File.t)
        (n : nat) (t : list Event) (r : Completion (list Comment)) (n' : nat) :
  analyzeCode w files d n = (t, r, n') ->
  let kept := filter (fun file => negb (is_deleted file)) files in
  exists k,
    (k <= length kept)%nat
    /\ n' = (n + k)%nat
    /\ filter is_inference (actions t)
       = map (fun file => ChatCompletionsCreate (promptOf d file)) (firstn k kept)
    /\ filter is_prompt (actions t)
       = map (fun file => CreatePrompt (promptOf d file)) (firstn k kept)
    /\ (forall result, r = Normal result -> k = length kept).
Proof. intros H. exact (analyzeLoop_calls w d files [] n t r n' H). Qed.

Lemma newComments_findings (w : Env) (file : File.t) (elements : list JSValue) :
  Forall (fun v => exists lineNumber reviewComment, is_finding v lineNumber reviewComment)
         elements ->
  exists new, newComments w file (JArray elements) = Normal new
              /\ length new = length elements.
Proof.
  intros H. simpl. induction H as [|v elements [s [rc Hv]] _ [new [IH Hlen]]].
  - exists []. split; reflexivity.
  - exists (commentOf file (s, rc) :: new). simpl.
    rewrite (toComment_finding w file v (s, rc) Hv), IH. simpl. now rewrite Hlen.
Qed.

Lemma analyzeLoop_answered (w : Env) (d : PRDetails) (files : list File.t) :
  forall (comments : list Comment) (n : nat),
    Forall (fun kf => Answered w d (fst kf) (snd kf)) (processed n files) ->
    exists t result,
      analyzeLoop w d files comments n
      = (t, Normal result,
         (n + length (filter (fun file => negb (is_deleted file)) files))%nat).
Proof.
  induction files as [|file rest IH]; intros comments n Hall.
  - exists [], comments. simpl. unfold ret. now rewrite Nat.add_0_r.
  - rewrite processed_cons in Hall. rewrite analyzeLoop_cons, analyzeFile_run. simpl filter.
    destruct (is_deleted file) eqn:Hdel; simpl negb; cbv iota.
    + destruct (IH comments n Hall) as [t [result Hrun]]. rewrite Hrun. eauto.
    + inversion Hall as [|kf l Hfile Hrest]; subst. simpl in Hfile. cbv zeta.
      assert (Hnext : forall c1, exists t result,
                 analyzeLoop w d rest c1 (S n)
                 = (t, Normal result,
                    (n + length (file :: filter (fun f => negb (is_deleted f)) rest))%nat)).
      { intros c1. destruct (IH c1 (S n) Hrest) as [t [result Hrun]].
        exists t, result. rewrite Hrun. simpl. do 2 f_equal. lia. }
      destruct Hfile as [e Hrev|v Hrev Hfalsy|elements Hrev Hfind]; rewrite Hrev.
      * destruct (Hnext comments) as [t [result Hrun]]. rewrite Hrun. eauto.
      * rewrite Hfalsy. destruct (Hnext comments) as [t [result Hrun]].
        rewrite Hrun. eauto.
      * cbn [truthy].
        destruct (newComments_findings w file elements Hfind) as [new [Hnew _]].
        rewrite Hnew. destruct (Hnext (comments ++ new)%list) as [t [result Hrun]].
        rewrite Hrun. eauto.
Qed.

(** X6. When every request of the loop is answered in a way the loop
    takes in (a fault, a value without truthy [reviews], or an array of
    objects whose [lineNumber] is a string), [analyzeCode] returns: no fault
    leaves it, and every file that is no deletion has been asked about. *)
Theorem X6_analysis_completes_on_schema_answers (w : Env) (d : PRDetails)
        (files : list File.t) (n : nat) :
  Forall (fun kf => Answered w d (fst kf) (snd kf)) (processed n files) ->
  exists t result,
    analyzeCode w files d n
    = (t, Normal result,
       (n + length (filter (fun file => negb (is_deleted file)) files))%nat).
Proof. intros H. exact (analyzeLoop_answered w d files [] n H). Qed.

Lemma analyzeLoop_nothing_found (w : Env) (d : PRDetails) (files : list File.t) :
  nothing_found w ->
  forall (comments : list Comment) (n : nat),
    exists t,
      analyzeLoop w d files comments n
      = (t, Normal comments,
         (n + length (filter (fun file => negb (is_deleted file)) files))%nat).
Proof.
  intros Hnone. induction files as [|file rest IH]; intros comments n.
  - exists []. simpl. unfold ret. now rewrite Nat.add_0_r.
  - rewrite analyzeLoop_cons, analyzeFile_run. simpl filter.
    destruct (is_deleted file); simpl negb; cbv iota.
    + destruct (IH comments n) as [t Hrun]. rewrite Hrun. eauto.
    + cbv zeta.
      assert (Hnext : exists t,
                 analyzeLoop w d rest comments (S n)
                 = (t, Normal comments,
                    (n + length (file :: filter (fun f => negb (is_deleted f)) rest))%nat)).
      { destruct (IH comments (S n)) as [t Hrun]. exists t. rewrite Hrun. simpl.
        do 2 f_equal. lia. }
      destruct Hnext as [t Hrun].
      pose proof (Hnone n (createPrompt file (File.chunks file) d)) as Hcall.
      destruct (reviewsOf w n (createPrompt file (File.chunks file) d)) as [v|e].
      * destruct Hcall as [Hfalsy| ->].
        -- rewrite Hfalsy, Hrun. eauto.
        -- simpl. rewrite app_nil_r, Hrun. eauto.
      * rewrite Hrun. eauto.
Qed.

(** X7. When no call finds anything (each is rejected, or its answer does
    not parse, or has a falsy [reviews], or the empty array), [analyzeCode]
    returns the empty array for every list of files, and the process submits
    nothing. *)
Theorem X7_nothing_found_nothing_submitted (w : Env) :
  nothing_found w ->
  (forall d files n,
     exists t,
       analyzeCode w files d n
       = (t, Normal [],
          (n + length (filter (fun file => negb (is_deleted file)) files))%nat))
  /\ submissions (fst (program w)) = [].
Proof.
  intros Hnone. split.
  - intros d files n. exact (analyzeLoop_nothing_found w d files Hnone [] n).
  - apply submissions_none. intros ev Hev.
    destruct (action ev) as [| | | | | |o r p cs| |] eqn:Hact; try reflexivity.
    exfalso.
    assert (Hin : In (CreateReview o r p cs) (actions (fst (program w)))).
    { unfold actions. rewrite <- Hact. now apply in_map. }
    destruct (program_submission _ _ _ _ _ Hin) as [Hne [d [diff [t [n' Hrun]]]]].
    destruct (analyzeLoop_nothing_found w d (filteredDiff w (parseDiff w diff)) Hnone [] O)
      as [t' Hrun'].
    unfold analyzeCode in Hrun. rewrite Hrun' in Hrun. inversion Hrun. congruence.
Qed.

Lemma getPRDetails_requests (w : Env) (n : nat) t r n' :
  getPRDetails w n = (t, r, n') ->
  Forall (fun ev => outside_review ev /\ is_diff_request (action ev) = false) t.
Proof.
  rewrite getPRDetails_run. cbv zeta.
  repeat match goal with
         | |- context [match ?c with Normal _ => _ | Throw _ => _ end] =>
             destruct c
         end;
    intros H; inversion H; subst; repeat constructor.
Qed.

(** X8. In a run whose event action is not [opened] or [synchronize], or
    cannot be read at all, no diff is requested, nothing is parsed, no
    prompt is compiled, no inference call is made and nothing is submitted,
    whether or not the metadata request succeeds. *)
Theorem X8_unsupported_event_requests_no_diff (w : Env) :
  (forall a, eventAction w = Normal a -> supported a = false) ->
  Forall (fun ev => outside_review ev /\ is_diff_request (action ev) = false)
         (fst (program w)).
Proof.
  intros Hevent. unfold program. rewrite main_run.
  destruct (getPRDetails w O) as [[t0 [d|e]] n0] eqn:Hd;
    pose proof (getPRDetails_requests _ _ _ _ _ Hd) as Ht0.
  - cbv zeta. destruct (eventAction w) as [a|e].
    + rewrite (Hevent a eq_refl). simpl. apply Forall_app. split; [exact Ht0|].
      repeat constructor.
    + simpl. rewrite <- app_assoc. apply Forall_app. split; [exact Ht0|].
      repeat constructor.
  - simpl. apply Forall_app. split; [exact Ht0|]. repeat constructor.
Qed.

Lemma analyzeLoop_kinds (w : Env) (d : PRDetails) (files : list File.t) :
  forall (comments : list Comment) (n : nat) t r n',
    analyzeLoop w d files comments n = (t, r, n') ->
    forall ev, In ev t ->
      is_prompt (action ev) || is_inference (action ev) || is_logged_error (action ev) = true.
Proof.
  induction files as [|file rest IH]; intros comments n t r n' H ev Hev.
  - inversion H; subst. destruct Hev.
  - rewrite analyzeLoop_cons in H.
    destruct (analyzeFile w d file comments n) as [[t1 r1] n1] eqn:Hfile.
    assert (Hfirst : forall ev1, In ev1 t1 ->
              is_prompt (action ev1) || is_inference (action ev1)
              || is_logged_error (action ev1) = true).
    { rewrite analyzeFile_run in Hfile. intros ev1 Hev1.
      destruct (is_deleted file).
      - inversion Hfile; subst. destruct Hev1.
      - cbv zeta in Hfile.
        destruct (reviewsOf w n (createPrompt file (File.chunks file) d));
          inversion Hfile; subst; simpl in Hev1;
          repeat (destruct Hev1 as [<-|Hev1]; [reflexivity|]); destruct Hev1. }
    destruct r1 as [comments1|e].
    + destruct (analyzeLoop w d rest comments1 n1) as [[t2 r2] n2] eqn:Hrest.
      inversion H; subst. apply in_app_or in Hev. destruct Hev as [Hev|Hev].
      * now apply Hfirst.
      * now apply (IH _ _ _ _ _ Hrest).
    + inversion H; subst. now apply Hfirst.
Qed.

Lemma host_requests_app (t1 t2 : list Event) :
  host_requests (t1 ++ t2) = (host_requests t1 ++ host_requests t2)%list.
Proof. unfold host_requests. apply filter_actions_app. Qed.

Lemma analyzeLoop_host_requests (w : Env) (d : PRDetails) (files : list File.t)
      (comments : list Comment) (n : nat) t r n' :
  analyzeLoop w d files comments n = (t, r, n') -> host_requests t = [].
Proof.
  intros H. pose proof (analyzeLoop_kinds _ _ _ _ _ _ _ _ H) as Hkinds.
  unfold host_requests, actions. clear H.
  induction t as [|ev t IH]; [reflexivity|]. simpl.
  assert (Hev := Hkinds ev (or_introl eq_refl)).
  destruct (action ev); simpl in Hev; try discriminate; simpl;
    apply IH; intros ev' Hev'; apply Hkinds; now right.
Qed.

Lemma getPRDetails_host_requests (w : Env) (n : nat) t r n' :
  getPRDetails w n = (t, r, n') ->
  match r with
  | Normal d => host_requests t = [PullsGet (owner d) (repo d) (pull_number d)]
  | Throw _ => host_requests t = [] \/ exists o rp p, host_requests t = [PullsGet o rp p]
  end.
Proof.
  rewrite getPRDetails_run. cbv zeta.
  repeat match goal with
         | |- context [match ?c with Normal _ => _ | Throw _ => _ end] =>
             destruct c
         end;
    intros H; inversion H; subst; try reflexivity; try (left; reflexivity);
    right; do 3 eexists; reflexivity.
Qed.

Lemma host_requests_cons (ev : Event) (t : list Event) :
  host_requests (ev :: t)
  = ((match addressee (action ev) with Some _ => [action ev] | None => [] end)
       ++ host_requests t)%list.
Proof. unfold host_requests. simpl. destruct (addressee (action ev)); reflexivity. Qed.

Ltac host_requests_normal :=
  repeat (rewrite host_requests_app || rewrite host_requests_cons);
  change (host_requests []) with (@nil Action); cbn [event action addressee app].

(** X9. The requests a run makes to the host are, in this order and each
    at most once, the metadata request, the diff request and the submission
    of the review, and all of them are made for the same owner, repository
    and number: what the trace holds of them is an initial part of that
    sequence of three. *)
Theorem X9_host_requests_in_order (w : Env) :
  exists o r p cs k,
    host_requests (fst (program w))
    = firstn k [PullsGet o r p; PullsGetDiff o r p; CreateReview o r p cs].
Proof.
  unfold program. rewrite main_run.
  destruct (getPRDetails w O) as [[t0 [d|e]] n0] eqn:Hd;
    pose proof (getPRDetails_host_requests _ _ _ _ _ Hd) as Ht0; cbv beta iota in Ht0.
  2:{ cbn [fst]. host_requests_normal. rewrite app_nil_r.
      destruct Ht0 as [->|[o [rp [p ->]]]].
      - exists JNull, JNull, JNull, [], O. reflexivity.
      - exists o, rp, p, [], 1%nat. reflexivity. }
  cbv zeta. set (o := owner d) in *. set (rp := repo d) in *. set (p := pull_number d) in *.
  destruct (eventAction w) as [a|e].
  2:{ cbn [fst]. host_requests_normal. rewrite Ht0.
      exists o, rp, p, [], 1%nat. reflexivity. }
  destruct (supported a).
  2:{ cbn [fst]. host_requests_normal. rewrite Ht0.
      exists o, rp, p, [], 1%nat. reflexivity. }
  destruct (pulls_get_diff w o rp p) as [diff|e].
  2:{ cbn [fst]. host_requests_normal. rewrite Ht0.
      exists o, rp, p, [], 2%nat. reflexivity. }
  destruct (no_content diff).
  { cbn [fst]. host_requests_normal. rewrite Ht0.
    exists o, rp, p, [], 2%nat. reflexivity. }
  rewrite review_run.
  destruct (analyzeCode w (filteredDiff w (parseDiff w (nullish diff EmptyString))) d n0)
    as [[ta [cs|e]] n'] eqn:Ha;
    pose proof (analyzeLoop_host_requests _ _ _ _ _ _ _ _ Ha) as Hta.
  - destruct cs as [|c cs].
    + cbn [fst]. host_requests_normal. rewrite Ht0, Hta.
      exists o, rp, p, [], 2%nat. reflexivity.
    + fold o rp p.
      destruct (pulls_createReview w o rp p (c :: cs)) as [[]|e];
        cbn [fst]; host_requests_normal; rewrite Ht0, Hta;
        exists o, rp, p, (c :: cs), 3%nat; reflexivity.
  - cbn [fst]. host_requests_normal. rewrite Ht0, Hta.
    exists o, rp, p, [], 2%nat. reflexivity.
Qed.

(** X10. An element of the [reviews] array that is [null] makes
    [aiResponse.map] throw: none of the findings of that file becomes a
    comment, and the fault leaves the loop at that file, whatever files
    follow.  An element that is a boolean, a number, a string or an array
    has neither member, and becomes a comment with an undefined body and
    the line NaN. *)
Theorem X10_null_and_primitive_findings (w : Env) (d : PRDetails) (file : File.t)
        (elements : list JSValue) (comments : list Comment) (n : nat) :
  In JNull elements ->
  is_deleted file = false ->
  reviewsOf w n (promptOf d file) = Normal (JArray elements) ->
  (exists e,
     newComments w file (JArray elements) = Throw e
     /\ forall rest,
          analyzeLoop w d (file :: rest) comments n =
          ([scoped file (CreatePrompt (promptOf d file));
            scoped file (ChatCompletionsCreate (promptOf d file))], Throw e, S n))
  /\ (forall v,
        (exists b, v = JBool b) \/ (exists x, v = JNumber x)
        \/ (exists s, v = JString s) \/ (exists l, v = JArray l) ->
        toComment w file v
        = Normal {| body := JUndefined; path := File.to file; line := NaN |}).
Proof.
  intros Hnull Hdel Hrev. split.
  - assert (Hthrow : exists e, map_completion (toComment w file) elements = Throw e).
    { clear Hrev. induction elements as [|v elements IH]; [destruct Hnull|].
      simpl. destruct Hnull as [->|Hin].
      - simpl. eauto.
      - destruct (toComment w file v); [|eauto].
        destruct (IH Hin) as [e ->]. eauto. }
    destruct Hthrow as [e He]. exists e. split; [exact He|].
    intros rest. rewrite analyzeLoop_cons, analyzeFile_run, Hdel. cbv zeta.
    fold (promptOf d file). rewrite Hrev. cbn [truthy newComments]. now rewrite He.
  - intros v [[b ->]|[[x ->]|[[s ->]|[l ->]]]]; reflexivity.
Qed.

(** X11. The label of a change is undefined exactly when the change has
    no [ln2] and its [ln] is absent or 0: the test of [c.ln] is on
    truthiness, so an added or a deleted line numbered 0 is rendered with
    the label text [undefined], while a context line is labelled with its
    [ln2] whatever that is. *)
Theorem X11_label_undefined_iff (c : Change.t) :
  (lineLabel c = None <->
   (Change.ln c = None \/ Change.ln c = Some 0%N) /\ Change.ln2 c = None)
  /\ (forall content,
        renderChange (AddChange 0 content) = "undefined " ++ content
        /\ renderChange (DeleteChange 0 content) = "undefined " ++ content)
  /\ (forall ln1 ln2 content,
        renderChange (NormalChange ln1 ln2 content) = N_toString ln2 ++ " " ++ content).
Proof.
  split; [|split; [split; reflexivity|reflexivity]].
  unfold lineLabel. destruct (Change.ln c) as [k|].
  - destruct (N.eqb_spec k 0).
    + subst. split; [intros H; split; auto|intros [_ H]; exact H].
    + split; [discriminate|]. intros [[H|H] _]; [discriminate|congruence].
  - split; [intros H; split; auto|intros [_ H]; exact H].
Qed.

Lemma split_comma_nonempty (s : string) : split_comma s <> [].
Proof.
  destruct s as [|c s]; simpl; [discriminate|].
  destruct (Ascii.eqb c ","%char); [discriminate|].
  destruct (split_comma s); discriminate.
Qed.

(** X12. Splitting the exclusion option at its commas loses nothing and
    invents nothing: joining the pieces with commas gives the option back,
    and there is one more piece than there are commas.  So the list of
    patterns is never empty, and an empty option gives the one empty
    pattern. *)
Theorem X12_split_at_commas (w : Env) :
  (forall s, join "," (split_comma s) = s)
  /\ (forall s, length (split_comma s) = S (commas s))
  /\ length (excludePatterns w) = S (commas (getInput w "exclude"))
  /\ excludePatterns w <> [].
Proof.
  assert (Hlen : forall s, length (split_comma s) = S (commas s)).
  { induction s as [|c s IH]; [reflexivity|]. simpl.
    destruct (Ascii.eqb c ","%char); simpl; [now rewrite IH|].
    destruct (split_comma s) as [|h t] eqn:Hs; [now apply split_comma_nonempty in Hs|].
    simpl in *. exact IH. }
  split; [|split; [exact Hlen|split]].
  - induction s as [|c s IH]; [reflexivity|]. simpl.
    destruct (Ascii.eqb_spec c ","%char) as [->|Hc].
    + destruct (split_comma s) as [|h t] eqn:Hs; [now apply split_comma_nonempty in Hs|].
      change (join "," (EmptyString :: h :: t)) with ("," ++ join "," (h :: t)).
      now rewrite IH.
    + destruct (split_comma s) as [|h t] eqn:Hs; [now apply split_comma_nonempty in Hs|].
      destruct t as [|h' t].
      * simpl in *. now rewrite IH.
      * change (join "," (String c h :: h' :: t))
          with (String c (h ++ "," ++ join "," (h' :: t))).
        change (join "," (h :: h' :: t)) with (h ++ "," ++ join "," (h' :: t)) in IH.
        now rewrite IH.
  - unfold excludePatterns. now rewrite length_map, Hlen.
  - unfold excludePatterns. intros H. apply map_eq_nil in H.
    now apply split_comma_nonempty in H.
Qed.

Lemma join_app (sep : string) (l1 l2 : list string) :
  l1 <> [] -> l2 <> [] ->
  join sep (l1 ++ l2) = join sep l1 ++ sep ++ join sep l2.
Proof.
  intros H1 H2. induction l1 as [|x l1 IH]; [contradiction|].
  destruct l1 as [|y l1].
  - simpl. destruct l2; [contradiction|reflexivity].
  - change (join sep ((x :: y :: l1) ++ l2)) with (x ++ sep ++ join sep ((y :: l1) ++ l2)).
    rewrite IH by discriminate.
    change (join sep (x :: y :: l1)) with (x ++ sep ++ join sep (y :: l1)).
    now rewrite !append_assoc.
Qed.

(** X13. The diff block of the prompt is made of whole lines, chunk after
    chunk in their order: for each chunk an empty line, its header, and one
    line for each of its changes in their order (a single empty line when
    the chunk has no change), all joined by line breaks. *)
Theorem X13_diff_block_lines (chunks : list Chunk.t) :
  combinedChunks chunks = join newline (flat_map chunk_lines chunks)
  /\ forall file d,
       createPrompt file chunks d
       = prompt_instructions ++ template_string (File.to file) ++ prompt_title
         ++ title d ++ prompt_description ++ description d ++ prompt_diff
         ++ join newline (flat_map chunk_lines chunks) ++ prompt_end.
Proof.
  assert (Hchunk : forall chunk, renderChunk chunk = join newline (chunk_lines chunk)).
  { intros chunk. unfold renderChunk, chunk_lines.
    destruct (Chunk.changes chunk) as [|c cs]; [reflexivity|].
    change (join newline (EmptyString :: Chunk.content chunk :: map renderChange (c :: cs)))
      with (EmptyString ++ newline ++ Chunk.content chunk ++ newline
            ++ join newline (map renderChange (c :: cs))).
    reflexivity. }
  assert (Hne : forall chunk, chunk_lines chunk <> []) by (intros chunk; discriminate).
  assert (Hall : combinedChunks chunks = join newline (flat_map chunk_lines chunks)).
  { unfold combinedChunks. induction chunks as [|chunk rest IH]; [reflexivity|].
    destruct rest as [|chunk' rest].
    - simpl. rewrite app_nil_r. apply Hchunk.
    - change (join newline (map renderChunk (chunk :: chunk' :: rest)))
        with (renderChunk chunk ++ newline
              ++ join newline (map renderChunk (chunk' :: rest))).
      rewrite IH, Hchunk.
      change (flat_map chunk_lines (chunk :: chunk' :: rest))
        with (chunk_lines chunk ++ flat_map chunk_lines (chunk' :: rest))%list.
      rewrite join_app; [reflexivity|apply Hne|].
      simpl. discriminate. }
  split; [exact Hall|]. intros file d. unfold createPrompt. now rewrite Hall.
Qed.

(** ** Trimming *)

Lemma append_nil_r (s : string) : s ++ EmptyString = s.
Proof. induction s as [|c s IH]; simpl; [reflexivity|now rewrite IH]. Qed.

Lemma length_append (a b : string) :
  String.length (a ++ b) = (String.length a + String.length b)%nat.
Proof. induction a as [|c a IH]; simpl; [reflexivity|now rewrite IH]. Qed.

Lemma string_rev_append (a b : string) :
  string_rev (a ++ b) = string_rev b ++ string_rev a.
Proof.
  induction a as [|c a IH]; simpl; [now rewrite append_nil_r|].
  now rewrite IH, append_assoc.
Qed.

Lemma string_rev_involutive (s : string) : string_rev (string_rev s) = s.
Proof.
  induction s as [|c s IH]; simpl; [reflexivity|].
  now rewrite string_rev_append, IH.
Qed.

Lemma length_string_rev (s : string) : String.length (string_rev s) = String.length s.
Proof.
  induction s as [|c s IH]; simpl; [reflexivity|].
  rewrite length_append, IH. simpl. lia.
Qed.

Lemma strip_prefix_some (p s rest : string) :
  strip_prefix p s = Some rest -> s = p ++ rest.
Proof.
  revert s. induction p as [|a p IH]; intros s H; simpl in *.
  - now inversion H.
  - destruct s as [|b s]; [discriminate|].
    destruct (Ascii.eqb_spec a b) as [->|]; [|discriminate].
    now rewrite (IH _ H).
Qed.

Lemma strip_prefix_append (p s rest more : string) :
  strip_prefix p s = Some rest -> strip_prefix p (s ++ more) = Some (rest ++ more).
Proof.
  revert s. induction p as [|a p IH]; intros s H; simpl in *.
  - now inversion H.
  - destruct s as [|b s]; [discriminate|]. simpl.
    destruct (Ascii.eqb a b); [now apply IH|discriminate].
Qed.

Lemma strip_any_some (ps : list string) (s rest : string) :
  strip_any ps s = Some rest -> exists p, In p ps /\ s = p ++ rest.
Proof.
  induction ps as [|p ps IH]; simpl; [discriminate|].
  destruct (strip_prefix p s) as [r|] eqn:Hp.
  - intros H; inversion H; subst. exists p. split; [now left|].
    now apply strip_prefix_some.
  - intros H. destruct (IH H) as [p' [Hin Heq]]. exists p'. split; [now right|exact Heq].
Qed.

Lemma strip_any_append (ps : list string) (s rest more : string) :
  strip_any ps s = Some rest -> exists rest', strip_any ps (s ++ more) = Some rest'.
Proof.
  induction ps as [|p ps IH]; simpl; [discriminate|].
  destruct (strip_prefix p s) as [r|] eqn:Hp.
  - intros _. rewrite (strip_prefix_append _ _ _ more Hp). eauto.
  - intros H. destruct (strip_prefix p (s ++ more)); [eauto|now apply IH].
Qed.

(** With fuel for every character, stripping ends where nothing of the
    list stands at the head, and it takes a prefix away. *)
Lemma strip_all_spec (ps : list string) :
  Forall (fun p => p <> EmptyString) ps ->
  forall fuel s,
    (String.length s <= fuel)%nat ->
    strip_any ps (strip_all ps fuel s) = None
    /\ exists taken, s = taken ++ strip_all ps fuel s.
Proof.
  intros Hps. induction fuel as [|fuel IH]; intros s Hlen.
  - destruct s; [|simpl in Hlen; lia]. simpl. split; [|exists EmptyString; reflexivity].
    destruct (strip_any ps EmptyString) as [rest|] eqn:H; [|reflexivity].
    destruct (strip_any_some _ _ _ H) as [p [Hin Heq]].
    rewrite Forall_forall in Hps. specialize (Hps p Hin).
    destruct p; [contradiction|discriminate].
  - simpl. destruct (strip_any ps s) as [rest|] eqn:H.
    + destruct (strip_any_some _ _ _ H) as [p [Hin Heq]].
      rewrite Forall_forall in Hps. pose proof (Hps p Hin) as Hp.
      assert (Hshort : (String.length rest <= fuel)%nat).
      { subst s. rewrite length_append in Hlen. destruct p; [contradiction|].
        simpl in Hlen. lia. }
      destruct (IH rest Hshort) as [Hnone [taken Htaken]].
      split; [exact Hnone|]. exists (p ++ taken).
      rewrite append_assoc, <- Htaken. exact Heq.
    + split; [exact H|]. exists EmptyString. reflexivity.
Qed.

Lemma strip_all_fixed (ps : list string) (fuel : nat) (s : string) :
  strip_any ps s = None -> strip_all ps fuel s = s.
Proof. intros H. destruct fuel; simpl; [reflexivity|now rewrite H]. Qed.

Lemma WhiteSpace_nonempty : Forall (fun p => p <> EmptyString) WhiteSpace.
Proof. unfold WhiteSpace. simpl. repeat constructor; discriminate. Qed.

Lemma WhiteSpace_rev_nonempty :
  Forall (fun p => p <> EmptyString) (map string_rev WhiteSpace).
Proof. unfold WhiteSpace. simpl. repeat constructor; discriminate. Qed.

Lemma trim_spec (s : string) :
  no_leading_space (trim s) /\ no_trailing_space (trim s).
Proof.
  unfold trim, no_leading_space, no_trailing_space.
  destruct (strip_all_spec WhiteSpace WhiteSpace_nonempty (String.length s) s (le_n _))
    as [Hstart _].
  fold (trimStart s) in Hstart. set (s' := trimStart s) in *.
  destruct (strip_all_spec (map string_rev WhiteSpace) WhiteSpace_rev_nonempty
              (String.length s') (string_rev s'))
    as [Hend [taken Htaken]].
  { rewrite length_string_rev. apply le_n. }
  unfold trimEnd. set (r := strip_all (map string_rev WhiteSpace) (String.length s')
                                      (string_rev s')) in *.
  split.
  - destruct (strip_any WhiteSpace (string_rev r)) as [rest|] eqn:H; [|reflexivity].
    exfalso.
    assert (Hs' : s' = string_rev r ++ string_rev taken).
    { rewrite <- string_rev_append, <- Htaken. now rewrite string_rev_involutive. }
    destruct (strip_any_append _ _ _ (string_rev taken) H) as [rest' Hrest'].
    rewrite <- Hs' in Hrest'. congruence.
  - now rewrite string_rev_involutive.
Qed.

Lemma trim_fixed (s : string) :
  no_leading_space s -> no_trailing_space s -> trim s = s.
Proof.
  unfold trim, trimStart, trimEnd, no_leading_space, no_trailing_space.
  intros Hstart Hend. rewrite (strip_all_fixed _ _ _ Hstart).
  rewrite (strip_all_fixed _ _ _ Hend). apply string_rev_involutive.
Qed.

(** X14. A trimmed string neither starts nor ends with white space, and
    trimming it again changes nothing.  So every exclusion pattern handed to
    [minimatch] is free of white space at both ends, and the text handed to
    [JSON.parse] is either [{}] or the content without the white space
    around it. *)
Theorem X14_patterns_are_trimmed (w : Env) :
  (forall s, no_leading_space (trim s) /\ no_trailing_space (trim s)
             /\ trim (trim s) = trim s)
  /\ (forall pattern, In pattern (excludePatterns w) ->
        no_leading_space pattern /\ no_trailing_space pattern /\ trim pattern = pattern)
  /\ (forall response res,
        responseText response = Normal res ->
        res <> EmptyString /\ no_leading_space res /\ no_trailing_space res).
Proof.
  assert (Htrim : forall s, no_leading_space (trim s) /\ no_trailing_space (trim s)
                            /\ trim (trim s) = trim s).
  { intros s. destruct (trim_spec s) as [H1 H2]. repeat split; auto.
    now apply trim_fixed. }
  split; [exact Htrim|]. split.
  - unfold excludePatterns. intros pattern Hin. apply in_map_iff in Hin.
    destruct Hin as [s [<- _]]. apply Htrim.
  - assert (Hbraces : no_leading_space "{}" /\ no_trailing_space "{}")
      by (split; reflexivity).
    unfold responseText. intros response res H.
    destruct (OpenAI.choices response) as [|choice others]; [discriminate|].
    destruct (OpenAI.message choice) as [m|].
    2:{ inversion H; subst. split; [discriminate|exact Hbraces]. }
    destruct (OpenAI.content m) as [s|].
    2:{ inversion H; subst. split; [discriminate|exact Hbraces]. }
    simpl in H. destruct (String.eqb_spec (trim s) EmptyString) as [Heq|Hne].
    + inversion H; subst. split; [discriminate|exact Hbraces].
    + inversion H; subst. destruct (Htrim s) as [H1 [H2 _]]. auto.
Qed.

(** ** Line numbers, printed and read back *)

Lemma round_half_even_integer (q : Q) (i : Z) :
  (q == inject_Z i)%Q -> round_half_even q = i.
Proof.
  unfold Qeq, round_half_even. simpl. rewrite Z.mul_1_r. intros H.
  rewrite H, Z.div_mul, Z.mod_mul by discriminate.
  simpl. destruct (Qden q); reflexivity.
Qed.

Lemma Qpower_2 (k : Z) : (0 <= k)%Z -> (Qpower 2 k == inject_Z (2 ^ k))%Q.
Proof. intros H. symmetry. now apply (Zpower_Qpower 2 k). Qed.

Lemma RoundMVResult_exact (z : Z) :
  (0 <= z < 2 ^ 53)%Z -> RoundMVResult false (inject_Z z) = Finite false (inject_Z z).
Proof.
  intros [H0 H53]. unfold RoundMVResult.
  destruct (Qeq_bool (inject_Z z) 0) eqn:Hz.
  - apply Qeq_bool_eq in Hz. unfold Qeq in Hz. simpl in Hz. rewrite Z.mul_1_r in Hz.
    subst. reflexivity.
  - assert (Hpos : (0 < z)%Z).
    { destruct (Z.eq_dec z 0) as [->|]; [discriminate|lia]. }
    assert (Hlog : (0 <= Z.log2 z < 53)%Z).
    { split; [apply Z.log2_nonneg|]. apply Z.log2_lt_pow2; lia. }
    assert (Hfloor : floor_log2 (inject_Z z) = Z.log2 z).
    { unfold floor_log2. simpl. rewrite Z.sub_0_r.
      assert (Hle : Qle_bool (Qpower 2 (Z.log2 z)) (inject_Z z) = true).
      { apply Qle_bool_iff. rewrite Qpower_2 by lia. rewrite <- Zle_Qle.
        apply Z.log2_spec. lia. }
      now rewrite Hle. }
    rewrite Hfloor. cbv zeta.
    set (j := (52 - Z.log2 z)%Z).
    assert (Hp : Z.max (Z.log2 z - 52) (-1074) = (- j)%Z) by (unfold j; lia).
    rewrite Hp.
    assert (Hj : (0 <= j)%Z) by (unfold j; lia).
    assert (Hscaled : (inject_Z z / Qpower 2 (- j) == inject_Z (z * 2 ^ j))%Q).
    { rewrite Qpower_opp, Qpower_2 by lia. rewrite inject_Z_mult.
      assert (Hnz : ~ (inject_Z (2 ^ j) == 0)%Q).
      { unfold Qeq. simpl. rewrite Z.mul_1_r. pose proof (Z.pow_pos_nonneg 2 j). lia. }
      field. exact Hnz. }
    rewrite (round_half_even_integer _ _ Hscaled).
    assert (Hback : (inject_Z (z * 2 ^ j) * Qpower 2 (- j) == inject_Z z)%Q).
    { rewrite Qpower_opp, Qpower_2 by lia. rewrite inject_Z_mult.
      assert (Hnz : ~ (inject_Z (2 ^ j) == 0)%Q).
      { unfold Qeq. simpl. rewrite Z.mul_1_r. pose proof (Z.pow_pos_nonneg 2 j). lia. }
      field. exact Hnz. }
    rewrite (Qred_complete _ _ Hback).
    assert (Hred : Qred (inject_Z z) = inject_Z z).
    { apply Qcanon.Qred_identity. simpl. apply Z.gcd_1_r. }
    rewrite Hred.
    assert (Hsmall : Qle_bool (Qpower 2 1024) (inject_Z z) = false).
    { destruct (Qle_bool (Qpower 2 1024) (inject_Z z)) eqn:Hle; [|reflexivity].
      apply Qle_bool_iff in Hle. rewrite Qpower_2 in Hle by lia.
      rewrite <- Zle_Qle in Hle.
      assert ((2 ^ 53 < 2 ^ 1024)%Z) by (apply Z.pow_lt_mono_r; lia). lia. }
    now rewrite Hsmall.
Qed.

Lemma digits_string_of_uint (d : Decimal.uint) :
  forall acc count,
    digits 10 (NilEmpty.string_of_uint d) acc count
    = (horner d acc, (count + Decimal.nb_digits d)%nat, EmptyString).
Proof.
  induction d; intros acc count; simpl;
    [now rewrite Nat.add_0_r| ..]; rewrite IHd; do 2 f_equal; lia.
Qed.

Lemma horner_spec (d : Decimal.uint) :
  forall acc,
    horner d acc
    = (DecimalPos.Unsigned.of_lu (Decimal.rev d)
       + acc * 10 ^ DecimalPos.Unsigned.usize d)%N.
Proof.
  induction d; intros acc; simpl DecimalPos.Unsigned.usize; simpl horner;
    [simpl; now rewrite N.mul_1_r| ..];
    rewrite N.pow_succ_r'; unfold Decimal.rev at 1; simpl Decimal.revapp;
    match goal with
    | |- context [Decimal.revapp d (?k Decimal.Nil)] =>
        rewrite (DecimalPos.Unsigned.of_lu_revapp d (k Decimal.Nil))
    end;
    rewrite IHd; simpl DecimalPos.Unsigned.of_lu; ring.
Qed.

Lemma horner_to_uint (n : N) : horner (N.to_uint n) 0 = n.
Proof.
  rewrite horner_spec, N.mul_0_l, N.add_0_r.
  rewrite <- DecimalPos.Unsigned.of_uint_alt.
  exact (DecimalN.Unsigned.of_to n).
Qed.

Lemma digits_only_string_of_uint (d : Decimal.uint) :
  digits_only (NilEmpty.string_of_uint d) = true.
Proof. induction d; simpl; auto. Qed.

Lemma digits_only_append (a b : string) :
  digits_only (a ++ b) = digits_only a && digits_only b.
Proof. induction a as [|c a IH]; simpl; [reflexivity|]. now rewrite IH, andb_assoc. Qed.

Lemma digits_only_rev (s : string) : digits_only (string_rev s) = digits_only s.
Proof.
  induction s as [|c s IH]; simpl; [reflexivity|].
  rewrite digits_only_append, IH. simpl. rewrite andb_true_r. apply andb_comm.
Qed.

Lemma digit_is_no_space (c : ascii) (rest : string) :
  is_digit c = true ->
  strip_any WhiteSpace (String c rest) = None
  /\ strip_any (map string_rev WhiteSpace) (String c rest) = None.
Proof.
  intros H. destruct c as [[] [] [] [] [] [] [] []]; try discriminate H;
    split; reflexivity.
Qed.

Lemma digits_only_trim (s : string) : digits_only s = true -> trim s = s.
Proof.
  intros H. apply trim_fixed.
  - unfold no_leading_space. destruct s as [|c s]; [reflexivity|]. simpl in H.
    apply andb_true_iff in H. destruct H as [Hc _].
    exact (proj1 (digit_is_no_space c s Hc)).
  - unfold no_trailing_space. rewrite <- digits_only_rev in H.
    destruct (string_rev s) as [|c r]; [reflexivity|].
    simpl in H. apply andb_true_iff in H. destruct H as [Hc _].
    exact (proj2 (digit_is_no_space c r Hc)).
Qed.

Lemma to_uint_nonnil (n : N) : N.to_uint n <> Decimal.Nil.
Proof.
  destruct n; simpl; [discriminate|]. apply DecimalPos.Unsigned.to_uint_nonnil.
Qed.

Lemma StringToNumber_N_toString (n : N) :
  (n < 2 ^ 53)%N -> StringToNumber (N_toString n) = lineNumberOf n.
Proof.
  intros Hn. unfold StringToNumber, N_toString, lineNumberOf. cbv zeta.
  pose proof (digits_only_string_of_uint (N.to_uint n)) as Hdig.
  pose proof (digits_string_of_uint (N.to_uint n) 0%N O) as Hparse.
  rewrite horner_to_uint in Hparse. simpl in Hparse.
  rewrite (digits_only_trim _ Hdig).
  destruct (NilEmpty.string_of_uint (N.to_uint n)) as [|c rest] eqn:Hs.
  { exfalso. pose proof (to_uint_nonnil n). destruct (N.to_uint n); simpl in Hs; congruence. }
  simpl in Hdig. apply andb_true_iff in Hdig. destruct Hdig as [Hc Hrest].
  change (String c rest =? EmptyString) with false. cbv iota.
  assert (Hnon : NonDecimalIntegerLiteral (String c rest) = None).
  { unfold NonDecimalIntegerLiteral.
    destruct rest as [|r rest]; [now destruct c as [[] [] [] [] [] [] [] []]|].
    simpl in Hrest. apply andb_true_iff in Hrest. destruct Hrest as [Hr _].
    destruct r as [[] [] [] [] [] [] [] []]; try discriminate Hr;
      now destruct c as [[] [] [] [] [] [] [] []]. }
  unfold StrNumericLiteral. rewrite Hnon.
  assert (Hdec : StrDecimalLiteral (String c rest)
                 = StrUnsignedDecimalLiteral false (String c rest)).
  { unfold StrDecimalLiteral.
    destruct c as [[] [] [] [] [] [] [] []]; try discriminate Hc; reflexivity. }
  rewrite Hdec. unfold StrUnsignedDecimalLiteral.
  assert (Hinf : (String c rest =? "Infinity") = false).
  { destruct c as [[] [] [] [] [] [] [] []]; try discriminate Hc; reflexivity. }
  rewrite Hinf, Hparse.
  destruct (Decimal.nb_digits (N.to_uint n)) as [|k] eqn:Hk.
  { exfalso. pose proof (to_uint_nonnil n). destruct (N.to_uint n); simpl in Hk; congruence. }
  simpl.
  assert (Hmv : (inject_Z (Z.of_N n) * 1)%Q = inject_Z (Z.of_N n)).
  { unfold Qmult, inject_Z. simpl. now rewrite Z.mul_1_r. }
  rewrite Hmv. apply RoundMVResult_exact. split; [lia|].
  change (2 ^ 53)%Z with (Z.of_N (2 ^ 53)). lia.
Qed.

(** X15. A line number below 2^53 that is printed in decimal, as
    [createPrompt] prints the label of a change, is read back by [Number] as
    the same number.  So a finding whose [lineNumber] is the label of a
    numbered change of the prompt becomes a comment on that very line, while
    the label [undefined] of an unnumbered change is read back as NaN. *)
Theorem X15_label_read_back (w : Env) (file : File.t) (c : Change.t) (n : N)
        (v reviewComment : JSValue) :
  lineLabel c = Some n ->
  (n < 2 ^ 53)%N ->
  is_finding v (template_number (lineLabel c)) reviewComment ->
  StringToNumber (N_toString n) = lineNumberOf n
  /\ toComment w file v
     = Normal {| body := reviewComment; path := File.to file; line := lineNumberOf n |}
  /\ StringToNumber (template_number None) = NaN.
Proof.
  intros Hlabel Hn Hfinding.
  pose proof (StringToNumber_N_toString n Hn) as Hback.
  split; [exact Hback|]. split; [|reflexivity].
  rewrite (toComment_finding w file v (template_number (lineLabel c), reviewComment) Hfinding).
  unfold commentOf. simpl. rewrite Hlabel. simpl. now rewrite Hback.
Qed.

(** * The further properties on concrete runs *)

Lemma X2_witness :
  let w := Further.opened [Scenario.file_a] Further.blank_answers in
  let prompt := promptOf Scenario.details Scenario.file_a in
  chat_completions_create w O prompt = Normal Further.blank_response
  /\ blank_content Further.blank_choice
  /\ JSON_parse w "{}" = Normal (JObject [])
  /\ getAIResponse w prompt O = ([event (ChatCompletionsCreate prompt)], Normal JUndefined, 1%nat).
Proof.
  intros w prompt.
  assert (H1 : chat_completions_create w O prompt = Normal Further.blank_response)
    by reflexivity.
  assert (H2 : OpenAI.choices Further.blank_response = [Further.blank_choice])
    by reflexivity.
  assert (H3 : blank_content Further.blank_choice) by reflexivity.
  assert (H4 : JSON_parse w "{}" = Normal (JObject [])) by reflexivity.
  split; [exact H1|]. split; [exact H3|]. split; [exact H4|].
  exact (proj1 (X2_blank_content_is_no_finding w Scenario.details Scenario.file_a []
                  O Further.blank_response Further.blank_choice [] H1 H2 H3 H4)).
Defined.

Lemma X3_witness :
  let w := Further.with_payload (Further.opened [] Further.outage)
                                Further.bare_payload_text in
  readFileSync w (or_else (GITHUB_EVENT_PATH w) EmptyString)
    = Normal Further.bare_payload_text
  /\ JSON_parse w Further.bare_payload_text = Normal (JObject Further.bare_payload_props)
  /\ lookup "repository" Further.bare_payload_props = JUndefined
  /\ program w
     = ([event (ReadFile Scenario.event_path); event (ConsoleError TypeError)], 1%N).
Proof.
  intros w.
  assert (H1 : readFileSync w (or_else (GITHUB_EVENT_PATH w) EmptyString)
               = Normal Further.bare_payload_text) by reflexivity.
  assert (H2 : JSON_parse w Further.bare_payload_text
               = Normal (JObject Further.bare_payload_props)) by reflexivity.
  split; [exact H1|]. split; [exact H2|]. split; [reflexivity|].
  exact (proj2 (X3_payload_without_repository w O Further.bare_payload_text
                  Further.bare_payload_props H1 H2 (or_introl eq_refl))).
Defined.

Lemma X4_witness :
  let w := Scenario.opened EmptyString [Scenario.file_a] Scenario.answers_two in
  getPRDetails w O = (Scenario.trace_details, Normal Scenario.details, O)
  /\ exists a, eventAction w = Normal a.
Proof.
  intros w.
  assert (H : getPRDetails w O = (Scenario.trace_details, Normal Scenario.details, O))
    by (vm_compute; reflexivity).
  split; [exact H|].
  exact (proj1 (proj2 (X4_details_come_from_the_payload w O _ _ _ H))).
Defined.

Lemma X5_witness :
  let w := Scenario.opened EmptyString
             [Scenario.file_a; Scenario.file_deleted; Scenario.file_b]
             Scenario.answers_two in
  analyzeCode w [Scenario.file_a; Scenario.file_deleted; Scenario.file_b]
              Scenario.details O
  = ((Scenario.trace_file Scenario.file_a ++ Scenario.trace_file Scenario.file_b)%list,
     Normal [Scenario.comment_a; Scenario.comment_b], 2%nat)
  /\ exists k,
       (k <= 2)%nat
       /\ 2%nat = (0 + k)%nat
       /\ filter is_inference
            (actions (Scenario.trace_file Scenario.file_a
                      ++ Scenario.trace_file Scenario.file_b))
          = map (fun file => ChatCompletionsCreate (promptOf Scenario.details file))
                (firstn k [Scenario.file_a; Scenario.file_b]).
Proof.
  intros w.
  assert (H : analyzeCode w [Scenario.file_a; Scenario.file_deleted; Scenario.file_b]
                          Scenario.details O
              = ((Scenario.trace_file Scenario.file_a
                  ++ Scenario.trace_file Scenario.file_b)%list,
                 Normal [Scenario.comment_a; Scenario.comment_b], 2%nat))
    by (vm_compute; reflexivity).
  split; [exact H|].
  destruct (X5_one_request_per_file w Scenario.details _ _ _ _ _ H)
    as [k [Hk [Hn [Hinf _]]]].
  exists k. repeat split; assumption.
Defined.

Lemma X6_witness :
  let w := Scenario.opened EmptyString [Scenario.file_a; Scenario.file_b]
                           Scenario.answers_then_prose in
  Forall (fun kf => Answered w Scenario.details (fst kf) (snd kf))
         (processed O [Scenario.file_a; Scenario.file_b])
  /\ exists t result,
       analyzeCode w [Scenario.file_a; Scenario.file_b] Scenario.details O
       = (t, Normal result, 2%nat).
Proof.
  intros w.
  assert (H : Forall (fun kf => Answered w Scenario.details (fst kf) (snd kf))
                     (processed O [Scenario.file_a; Scenario.file_b])).
  { repeat constructor.
    - eapply answered_findings with
        (elements := [JObject [("lineNumber", JString "1");
                               ("reviewComment", JString "Prefer const.")]]).
      + vm_compute. reflexivity.
      + repeat constructor. do 3 eexists. repeat split.
    - eapply answered_fault with (e := SyntaxError). vm_compute. reflexivity. }
  split; [exact H|].
  exact (X6_analysis_completes_on_schema_answers w Scenario.details
           [Scenario.file_a; Scenario.file_b] O H).
Defined.

Lemma X7_witness :
  let w := Further.opened [Scenario.file_a; Scenario.file_b] Further.outage in
  nothing_found w /\ submissions (fst (program w)) = [].
Proof.
  intros w.
  assert (H : nothing_found w) by (intros n prompt; exact I).
  split; [exact H|]. exact (proj2 (X7_nothing_found_nothing_submitted w H)).
Defined.

Lemma X8_witness :
  let w := Scenario.world "closed" (Throw (Fault "Not Found")) (Normal None)
                          EmptyString [] Scenario.answers_two in
  (forall a, eventAction w = Normal a -> supported a = false)
  /\ Forall (fun ev => outside_review ev /\ is_diff_request (action ev) = false)
            (fst (program w)).
Proof.
  intros w.
  assert (H : forall a, eventAction w = Normal a -> supported a = false).
  { intros a Ha. vm_compute in Ha. inversion Ha. reflexivity. }
  split; [exact H|]. exact (X8_unsupported_event_requests_no_diff w H).
Defined.

Lemma X10_witness :
  let w := Further.opened [Scenario.file_a] Further.null_finding_answers in
  In JNull Further.null_finding_elements
  /\ is_deleted Scenario.file_a = false
  /\ reviewsOf w O (promptOf Scenario.details Scenario.file_a)
     = Normal (JArray Further.null_finding_elements)
  /\ exists e,
       newComments w Scenario.file_a (JArray Further.null_finding_elements) = Throw e.
Proof.
  intros w.
  assert (H1 : In JNull Further.null_finding_elements) by (right; left; reflexivity).
  assert (H3 : reviewsOf w O (promptOf Scenario.details Scenario.file_a)
               = Normal (JArray Further.null_finding_elements))
    by (vm_compute; reflexivity).
  split; [exact H1|]. split; [reflexivity|]. split; [exact H3|].
  destruct (proj1 (X10_null_and_primitive_findings w Scenario.details Scenario.file_a
                     Further.null_finding_elements [] O H1 eq_refl H3)) as [e [He _]].
  exists e. exact He.
Defined.

Lemma X15_witness :
  let c := AddChange 12 "+x" in
  let v := JObject [("lineNumber", JString "12"); ("reviewComment", JString "Rename.")] in
  let w := Scenario.opened EmptyString [Scenario.file_a] Scenario.answers_two in
  lineLabel c = Some 12%N
  /\ (12 < 2 ^ 53)%N
  /\ is_finding v (template_number (lineLabel c)) (JString "Rename.")
  /\ toComment w Scenario.file_a v
     = Normal {| body := JString "Rename."; path := Some "a.ts"; line := lineNumberOf 12 |}.
Proof.
  intros c v w.
  assert (H1 : lineLabel c = Some 12%N) by reflexivity.
  assert (H2 : (12 < 2 ^ 53)%N) by reflexivity.
  assert (H3 : is_finding v (template_number (lineLabel c)) (JString "Rename."))
    by (eexists; repeat split).
  split; [exact H1|]. split; [exact H2|]. split; [exact H3|].
  exact (proj1 (proj2 (X15_label_read_back w Scenario.file_a c 12 v (JString "Rename.")
                         H1 H2 H3))).
Defined.


